(** * pygedcom: the line tokenizer, the level check, the top-level parser,
      the exporter and the individual record, embedded from the Python source.

    Characters are modelled by [ascii], read as the code points 0..255;
    Python [str] values are [string], Python [int] values are [Z].
    An exception raised by the code is the [Err] side of [result]. *)

From Stdlib Require Import String Ascii List ZArith Lia Bool.
From Stdlib Require Import Decimal DecimalString.
Import ListNotations.

Local Open Scope string_scope.
Local Open Scope list_scope.

(** ** Exceptions and results *)

Inductive exn : Type :=
| ValueError
| IndexError
| FormatException (message : string).

Inductive result (A : Type) : Type :=
| Ok (a : A)
| Err (e : exn).

Arguments Ok {A} a.
Arguments Err {A} e.

Definition bind {A B : Type} (r : result A) (k : A -> result B) : result B :=
  match r with
  | Ok a => k a
  | Err e => Err e
  end.

Notation "x <- r ;; k" := (bind r (fun x => k))
  (at level 61, r at next level, right associativity).

(** ** Python string primitives used by the source *)

Module PyStr.

(** [s.split(sep)] for a one-character separator: every occurrence cuts,
    empty pieces are kept, the result is never the empty list. *)
Fixpoint split (sep : ascii) (s : string) : list string :=
  match s with
  | EmptyString => [EmptyString]
  | String c rest =>
      if Ascii.eqb c sep then EmptyString :: split sep rest
      else match split sep rest with
           | [] => [String c EmptyString]
           | w :: ws => String c w :: ws
           end
  end.

(** [sep.join(pieces)] *)
Definition join (sep : string) (pieces : list string) : string :=
  String.concat sep pieces.

(** [s.startswith(p)] *)
Definition startswith (p s : string) : bool := String.prefix p s.

Definition code (c : ascii) : N := N_of_ascii c.

(** [c.isspace()] on the code points 0..255:
    U+0009..U+000D, U+001C..U+001F, U+0020, U+0085, U+00A0. *)
Definition isspace (c : ascii) : bool :=
  let n := code c in
  ((9 <=? n) && (n <=? 13) || (28 <=? n) && (n <=? 32)
   || (n =? 133) || (n =? 160))%N.

Fixpoint lstrip (s : string) : string :=
  match s with
  | EmptyString => EmptyString
  | String c rest => if isspace c then lstrip rest else s
  end.

Fixpoint rstrip (s : string) : string :=
  match s with
  | EmptyString => EmptyString
  | String c rest =>
      match rstrip rest with
      | EmptyString => if isspace c then EmptyString else String c EmptyString
      | r => String c r
      end
  end.

(** [s.strip()] *)
Definition strip (s : string) : string := rstrip (lstrip s).

(** The blanks [int()] skips around a literal: U+0009..U+000D and U+0020,
    and the two blanks above U+007F, U+0085 and U+00A0.  The separators
    U+001C..U+001F are blanks for [strip] but not for [int]. *)
Definition int_space (c : ascii) : bool :=
  let n := code c in
  ((9 <=? n) && (n <=? 13) || (n =? 32) || (n =? 133) || (n =? 160))%N.

Fixpoint int_lskip (s : string) : string :=
  match s with
  | EmptyString => EmptyString
  | String c rest => if int_space c then int_lskip rest else s
  end.

Fixpoint int_rskip (s : string) : string :=
  match s with
  | EmptyString => EmptyString
  | String c rest =>
      match int_rskip rest with
      | EmptyString =>
          if int_space c then EmptyString else String c EmptyString
      | r => String c r
      end
  end.

Definition is_digit (c : ascii) : bool :=
  ((48 <=? code c) && (code c <=? 57))%N.

Definition digit_value (c : ascii) : Z := Z.of_N (code c) - 48.

(** Decimal digits with single underscores between digits. *)
Fixpoint int_digits (acc : Z) (after_digit : bool) (s : string)
  : option Z :=
  match s with
  | EmptyString => if after_digit then Some acc else None
  | String c rest =>
      if is_digit c then int_digits (10 * acc + digit_value c) true rest
      else if Ascii.eqb c "_"
           then if after_digit then int_digits acc false rest else None
           else None
  end.

(** The digits of a literal, underscores not counted. *)
Fixpoint digit_count (s : string) : N :=
  match s with
  | EmptyString => 0%N
  | String c rest => ((if is_digit c then 1 else 0) + digit_count rest)%N
  end.

(** [sys.get_int_max_str_digits()] as the interpreter starts: a literal
    with more digits makes [int] raise [ValueError]. *)
Definition int_max_str_digits : N := 4300.

(** The digits after the sign: within the limit, and well formed. *)
Definition int_literal (body : string) : option Z :=
  if (digit_count body <=? int_max_str_digits)%N
  then int_digits 0 false body
  else None.

(** [int(s)] in base ten: [None] stands for [ValueError]. *)
Definition int (s : string) : option Z :=
  let t := int_rskip (int_lskip s) in
  match t with
  | EmptyString => None
  | String c body =>
      if Ascii.eqb c "+" then int_literal body
      else if Ascii.eqb c "-"
           then option_map Z.opp (int_literal body)
           else int_literal t
  end.

(** [str(n)] for a natural number. *)
Definition str_nat (n : nat) : string :=
  NilZero.string_of_uint (Nat.to_uint n).

(** [str(z)] for an integer. *)
Definition str_Z (z : Z) : string := NilZero.string_of_int (Z.to_int z).

(** The concatenation of a list of texts. *)
Definition flatten (texts : list string) : string :=
  fold_right String.append EmptyString texts.

End PyStr.

(** ** The line tokenizer: [GedcomParser.__parse_line] *)

Record ParsedLine : Type := mkParsedLine {
  level : Z;
  xref : option string;
  tag : string;
  value : string
}.

(** [chars[0]] *)
Definition first_item (chars : list string) : result string :=
  match chars with
  | [] => Err IndexError
  | c :: _ => Ok c
  end.

(** [chars.pop(0)]: the item and the list that remains. *)
Definition pop0 (chars : list string) : result (string * list string) :=
  match chars with
  | [] => Err IndexError
  | c :: rest => Ok (c, rest)
  end.

Definition py_int (s : string) : result Z :=
  match PyStr.int s with
  | Some n => Ok n
  | None => Err ValueError
  end.

Definition parse_line (line : string) : result ParsedLine :=
  let chars := PyStr.split " " line in
  p <- pop0 chars ;;
  let (tok, chars) := p in
  level <- py_int tok ;;
  c0 <- first_item chars ;;
  r <- (if PyStr.startswith "@" c0
        then (q <- pop0 chars ;; Ok (Some (fst q), snd q))
        else Ok (None, chars)) ;;
  let (xref, chars) := r in
  t <- pop0 chars ;;
  let (tag, chars) := t in
  let value :=
    match chars with
    | [] => ""
    | _ => PyStr.join " " chars
    end in
  Ok (mkParsedLine level xref tag value).

(** ** The level check: [GedcomParser.verify] *)

Inductive Status : Type := StatusOk | StatusError.

Record VerifyResult : Type := mkVerifyResult {
  status : Status;
  message : string
}.

Definition is_blank (line : string) : bool := String.eqb line "".

(** The [for] loop of [verify]: [current_line] counts the lines seen so far. *)
Fixpoint verify_lines (current_level : Z) (current_line : nat)
  (lines : list string) : result VerifyResult :=
  match lines with
  | [] => Ok (mkVerifyResult StatusOk "")
  | line :: rest =>
      let current_line := S current_line in
      if is_blank line then verify_lines current_level current_line rest
      else
        parsed_line <- parse_line line ;;
        if (level parsed_line >? current_level + 1)%Z
        then Ok (mkVerifyResult StatusError
                   ("Invalid level on line " ++ PyStr.str_nat current_line
                    ++ ": " ++ line))
        else verify_lines (level parsed_line) current_line rest
  end.

(** [verify], from the text [file] that [__open] returned. *)
Definition verify (file : string) : result VerifyResult :=
  verify_lines 0 0 (PyStr.split "010" file).

(** ** Element nodes *)

(** Modelled from the spec: [element.py] is absent.  One node of the parsed
    tree: level, optional cross-reference, tag, value and ordered children. *)
#[warnings="-register-all"]
Inductive GedcomElement : Type :=
| Element (elt_level : Z) (elt_xref : option string) (elt_tag : string)
    (elt_value : string) (elt_children : list GedcomElement).

Definition get_tag (e : GedcomElement) : string :=
  match e with Element _ _ t _ _ => t end.

Definition get_value (e : GedcomElement) : string :=
  match e with Element _ _ _ v _ => v end.

(** Modelled from the spec: [find_sub_element(tag)] of the absent
    [element.py] returns the immediate children whose tag matches, in source
    order, and the empty list when none does. *)
Definition find_sub_element (t : string) (subs : list GedcomElement)
  : list GedcomElement :=
  filter (fun e => String.eqb (get_tag e) t) subs.

(** What the source calls from files that are absent: the partition of a
    line buffer into child nodes by [GedcomElement.__init__], and
    [GedcomCommonEvent.init_properties], run on a node that is re-typed. *)
Class ElementModule : Type := {
  parse_sub_elements : Z -> list string -> result (list GedcomElement);
  init_properties : GedcomElement -> result unit
}.

(** Python indexing [l[i]], negative indices counted from the end. *)
Definition py_index {A : Type} (l : list A) (i : Z) : result A :=
  let n := Z.of_nat (length l) in
  let j := (if i <? 0 then i + n else i)%Z in
  if ((j <? 0) || (n <=? j))%Z then Err IndexError
  else match nth_error l (Z.to_nat j) with
       | Some a => Ok a
       | None => Err IndexError
       end.

(** ** Root records *)

(** Modelled from the spec: [rootElement.py] is absent; a top-level record
    keeps the level, cross-reference and tag it is built with and the
    children made from its line buffer. *)
Record GedcomRootElement : Type := mkRoot {
  root_level : Z;
  root_xref : option string;
  root_tag : string;
  sub_elements : list GedcomElement
}.

(** A re-typed event node: the node itself, children kept. *)
Definition GedcomCommonEvent : Type := GedcomElement.

Record GedcomIndividual : Type := mkIndividual {
  indi_root : GedcomRootElement;
  export_name : string;
  export_first_name : string;
  export_last_name : string;
  export_birth : option GedcomCommonEvent;
  export_death : option GedcomCommonEvent;
  export_sex : option string;
  export_media : list string
}.

(** Modelled from the spec: [family.py] is absent; husband and wife are the
    first HUSB and WIFE values or the empty string, children the CHIL values
    in order, marriage the first MARR child re-typed. *)
Record GedcomFamily : Type := mkFamily {
  fam_root : GedcomRootElement;
  husband : string;
  wife : string;
  children : list string;
  marriage : option GedcomCommonEvent
}.

(** Modelled from the spec: header, source, object and repository are thin
    wrappers of a root record ([head.py], [source.py], [object.py] and the
    repository of the [pygedcom] package are absent). *)
Record GedcomHead : Type := mkHead { head_root : GedcomRootElement }.
Record GedcomSource : Type := mkSource { source_root : GedcomRootElement }.
Record GedcomObject : Type := mkObject { object_root : GedcomRootElement }.
Record GedcomRepository : Type :=
  mkRepository { repository_root : GedcomRootElement }.

(** The records that answer [get_xref()]. *)
Class HasXref (T : Type) : Type := { get_xref : T -> option string }.

#[export] Instance individual_xref : HasXref GedcomIndividual :=
  {| get_xref := fun i => root_xref (indi_root i) |}.
#[export] Instance family_xref : HasXref GedcomFamily :=
  {| get_xref := fun f => root_xref (fam_root f) |}.
#[export] Instance source_xref : HasXref GedcomSource :=
  {| get_xref := fun r => root_xref (source_root r) |}.
#[export] Instance object_xref : HasXref GedcomObject :=
  {| get_xref := fun r => root_xref (object_root r) |}.
#[export] Instance repository_xref : HasXref GedcomRepository :=
  {| get_xref := fun r => root_xref (repository_root r) |}.

(** ** The individual record: [GedcomIndividual] *)

Definition find_name (subs : list GedcomElement) : string :=
  match find_sub_element "NAME" subs with
  | [] => ""
  | e :: _ => get_value e
  end.

(** [name.split("/")[0].split(" ")[0].strip()] *)
Definition find_first_name (name : string) : result string :=
  part <- py_index (PyStr.split "/" name) 0 ;;
  tok <- py_index (PyStr.split " " part) 0 ;;
  Ok (PyStr.strip tok).

(** [name.split("/")[-2].strip()] *)
Definition find_last_name (name : string) : result string :=
  part <- py_index (PyStr.split "/" name) (-2) ;;
  Ok (PyStr.strip part).

Definition find_sex (subs : list GedcomElement) : option string :=
  match find_sub_element "SEX" subs with
  | [] => None
  | e :: _ => Some (get_value e)
  end.

Definition find_media (subs : list GedcomElement) : list string :=
  map get_value (find_sub_element "OBJE" subs).

Section Records.
Context `{ElementModule}.

(** [__init_birth], [__init_death] and the marriage of a family: the
    first child of that tag, re-typed, or [None]. *)
Definition init_event (t : string) (subs : list GedcomElement)
  : result (option GedcomCommonEvent) :=
  match find_sub_element t subs with
  | [] => Ok None
  | e :: _ => _ <- init_properties e ;; Ok (Some e)
  end.

(** Modelled from the spec: [GedcomRootElement.__init__] of the absent
    [rootElement.py] keeps its arguments and builds the children from the
    buffer. *)
Definition GedcomRootElement_init (lvl : Z) (x : option string)
  (t : string) (lines : list string) : result GedcomRootElement :=
  subs <- parse_sub_elements lvl lines ;;
  Ok (mkRoot lvl x t subs).

(** The body of [GedcomIndividual.__init__] after [super().__init__]. *)
Definition individual_fields (root : GedcomRootElement)
  : result GedcomIndividual :=
  let subs := sub_elements root in
  let name := find_name subs in
  first_name <- find_first_name name ;;
  last_name <- find_last_name name ;;
  birth <- init_event "BIRT" subs ;;
  death <- init_event "DEAT" subs ;;
  Ok (mkIndividual root name first_name last_name birth death
        (find_sex subs) (find_media subs)).

Definition GedcomIndividual_init (lvl : Z) (x : option string)
  (t : string) (lines : list string) : result GedcomIndividual :=
  root <- GedcomRootElement_init lvl x t lines ;;
  individual_fields root.

Definition first_value (t : string) (subs : list GedcomElement) : string :=
  match find_sub_element t subs with
  | [] => ""
  | e :: _ => get_value e
  end.

(** Modelled from the spec: the constructor of the absent [family.py]. *)
Definition GedcomFamily_init (lvl : Z) (x : option string)
  (t : string) (lines : list string) : result GedcomFamily :=
  root <- GedcomRootElement_init lvl x t lines ;;
  let subs := sub_elements root in
  m <- init_event "MARR" subs ;;
  Ok (mkFamily root (first_value "HUSB" subs) (first_value "WIFE" subs)
        (map get_value (find_sub_element "CHIL" subs)) m).

(** Modelled from the spec: the constructors of the absent header, source,
    object and repository classes, thin wrappers of the root record. *)
Definition GedcomHead_init (lvl : Z) (x : option string)
  (t : string) (lines : list string) : result GedcomHead :=
  root <- GedcomRootElement_init lvl x t lines ;; Ok (mkHead root).

Definition GedcomSource_init (lvl : Z) (x : option string)
  (t : string) (lines : list string) : result GedcomSource :=
  root <- GedcomRootElement_init lvl x t lines ;; Ok (mkSource root).

Definition GedcomObject_init (lvl : Z) (x : option string)
  (t : string) (lines : list string) : result GedcomObject :=
  root <- GedcomRootElement_init lvl x t lines ;; Ok (mkObject root).

Definition GedcomRepository_init (lvl : Z) (x : option string)
  (t : string) (lines : list string) : result GedcomRepository :=
  root <- GedcomRootElement_init lvl x t lines ;; Ok (mkRepository root).

End Records.

(** ** Export values *)

(** The values the structured export builds: [None], strings, lists and
    [dict]s.  A [dict] is an association list in insertion order; its keys
    are strings or [None] (a record without cross-reference). *)
#[warnings="-register-all"]
Inductive json : Type :=
| JNone
| JStr (s : string)
| JList (items : list json)
| JDict (entries : list (option string * json)).

Definition key_eqb (a b : option string) : bool :=
  match a, b with
  | Some x, Some y => String.eqb x y
  | None, None => true
  | _, _ => false
  end.

(** [d[k] = v]: an existing key keeps its place and takes the new value. *)
Fixpoint dict_set (d : list (option string * json)) (k : option string)
  (v : json) : list (option string * json) :=
  match d with
  | [] => [(k, v)]
  | (k', v') :: rest =>
      if key_eqb k' k then (k', v) :: rest else (k', v') :: dict_set rest k v
  end.

(** The two serialisations every root record offers; their code is absent
    ([export] and [extract_gedcom] of the record classes). *)
Class Exportable (T : Type) : Type := {
  export_data : bool -> T -> json;
  extract_gedcom : T -> string
}.

(** [json.dumps(_, indent=4, ensure_ascii=False)] of the standard library. *)
Class JsonModule : Type := { dumps : json -> string }.

(** ** The parser object: [GedcomParser] *)

Record GedcomParser : Type := mkParser {
  head : option GedcomHead;
  individuals : list GedcomIndividual;
  families : list GedcomFamily;
  sources : list GedcomSource;
  objects : list GedcomObject;
  repositories : list GedcomRepository
}.

(** [__init__] and the first six statements of [parse]. *)
Definition empty_parser : GedcomParser := mkParser None [] [] [] [] [].

(** A method that reads and updates [self] and may raise: the state that
    the statements before the exception produced is kept. *)
Definition M (A : Type) : Type := GedcomParser -> result A * GedcomParser.

Definition ret {A : Type} (a : A) : M A := fun self => (Ok a, self).

Definition raise {A : Type} (e : exn) : M A := fun self => (Err e, self).

Definition mbind {A B : Type} (m : M A) (k : A -> M B) : M B :=
  fun self =>
    match m self with
    | (Ok a, self') => k a self'
    | (Err e, self') => (Err e, self')
    end.

Definition lift {A : Type} (r : result A) : M A := fun self => (r, self).

Definition modify (f : GedcomParser -> GedcomParser) : M unit :=
  fun self => (Ok tt, f self).

Notation "x <~ m ;; k" := (mbind m (fun x => k))
  (at level 61, m at next level, right associativity).

Definition set_head (h : option GedcomHead) (self : GedcomParser) :=
  mkParser h (individuals self) (families self) (sources self)
    (objects self) (repositories self).

Definition append_individual (i : GedcomIndividual) (self : GedcomParser) :=
  mkParser (head self) (individuals self ++ [i]) (families self)
    (sources self) (objects self) (repositories self).

Definition append_family (f : GedcomFamily) (self : GedcomParser) :=
  mkParser (head self) (individuals self) (families self ++ [f])
    (sources self) (objects self) (repositories self).

Definition append_source (r : GedcomSource) (self : GedcomParser) :=
  mkParser (head self) (individuals self) (families self)
    (sources self ++ [r]) (objects self) (repositories self).

Definition append_object (r : GedcomObject) (self : GedcomParser) :=
  mkParser (head self) (individuals self) (families self)
    (sources self) (objects self ++ [r]) (repositories self).

Definition append_repository (r : GedcomRepository) (self : GedcomParser) :=
  mkParser (head self) (individuals self) (families self)
    (sources self) (objects self) (repositories self ++ [r]).

(** The dictionary [parse] returns. *)
Record Collections : Type := mkCollections {
  c_individuals : list GedcomIndividual;
  c_families : list GedcomFamily;
  c_sources : list GedcomSource;
  c_objects : list GedcomObject;
  c_repositories : list GedcomRepository
}.

Definition collections (self : GedcomParser) : Collections :=
  mkCollections (individuals self) (families self) (sources self)
    (objects self) (repositories self).

Section Parser.
Context `{ElementModule}.

(** [__create_element]: the constructor runs first, then the append. *)
Definition create_element (parsed_line : ParsedLine)
  (element_lines : list string) : M unit :=
  let lvl := level parsed_line in
  let x := xref parsed_line in
  let t := tag parsed_line in
  if String.eqb t "INDI" then
    r <~ lift (GedcomIndividual_init lvl x t element_lines) ;;
    modify (append_individual r)
  else if String.eqb t "FAM" then
    r <~ lift (GedcomFamily_init lvl x t element_lines) ;;
    modify (append_family r)
  else if String.eqb t "HEAD" then
    r <~ lift (GedcomHead_init lvl (Some "") t element_lines) ;;
    modify (set_head (Some r))
  else if String.eqb t "SOUR" then
    r <~ lift (GedcomSource_init lvl x t element_lines) ;;
    modify (append_source r)
  else if String.eqb t "REPO" then
    r <~ lift (GedcomRepository_init lvl x t element_lines) ;;
    modify (append_repository r)
  else if String.eqb t "OBJE" then
    r <~ lift (GedcomObject_init lvl x t element_lines) ;;
    modify (append_object r)
  else ret tt.

(** The [for line in lines[1:]] loop of [parse]; it hands back the last
    [current_parsed_line] and [element_lines]. *)
Fixpoint parse_loop (lines : list string) (current_parsed_line : ParsedLine)
  (element_lines : list string) : M (ParsedLine * list string) :=
  match lines with
  | [] => ret (current_parsed_line, element_lines)
  | line :: rest =>
      if is_blank line
      then parse_loop rest current_parsed_line element_lines
      else
        tmp_parsed_line <~ lift (parse_line line) ;;
        if (level tmp_parsed_line >? 0)%Z
        then parse_loop rest current_parsed_line (element_lines ++ [line])
        else
          _ <~ create_element current_parsed_line element_lines ;;
          parse_loop rest tmp_parsed_line []
  end.

(** [parse], from the text [file] that [__open] returned. *)
Definition parse (file : string) : M Collections :=
  _ <~ modify (fun _ => empty_parser) ;;
  let lines := PyStr.split "010" file in
  first <~ lift (py_index lines 0) ;;
  current_parsed_line <~ lift (parse_line first) ;;
  last <~ parse_loop (tl lines) current_parsed_line [] ;;
  _ <~ create_element (fst last) (snd last) ;;
  fun self => (Ok (collections self), self).

End Parser.

(** ** Lookup and relations *)

(** [__find_root_element]: the first record whose [get_xref()] equals
    [xref], or [None]. *)
Definition find_root_element {T : Type} `{HasXref T} (collection : list T)
  (x : string) : option T :=
  find (fun element => key_eqb (get_xref element) (Some x)) collection.

Definition find_individual (self : GedcomParser) (x : string)
  : option GedcomIndividual :=
  find_root_element (individuals self) x.

(** Modelled from the spec: [get_parents()] of the absent [family.py], the
    two parent-reference fields of the family. *)
Definition family_get_parents (f : GedcomFamily) : list string :=
  [husband f; wife f].

(** [x in l] for a cross-reference that may be [None]. *)
Definition xref_in (x : option string) (l : list string) : bool :=
  existsb (fun y => key_eqb x (Some y)) l.

(** [get_children]: one entry per child reference, [None] where
    [find_individual] finds nothing. *)
Definition get_children (self : GedcomParser) (individual : GedcomIndividual)
  : list (option GedcomIndividual) :=
  flat_map
    (fun family =>
       if xref_in (get_xref individual) (family_get_parents family)
       then map (find_individual self) (children family)
       else [])
    (families self).

Definition get_parents (self : GedcomParser) (individual : GedcomIndividual)
  : list (option GedcomIndividual) :=
  flat_map
    (fun family =>
       if xref_in (get_xref individual) (children family)
       then (if negb (String.eqb (husband family) "")
             then [find_individual self (husband family)] else [])
            ++ (if negb (String.eqb (wife family) "")
                then [find_individual self (wife family)] else [])
       else [])
    (families self).

(** ** The exporter: [GedcomParser.export] *)

Section Exporter.
Context `{Exportable GedcomHead} `{Exportable GedcomIndividual}
        `{Exportable GedcomFamily} `{Exportable GedcomSource}
        `{Exportable GedcomObject} `{Exportable GedcomRepository}
        `{JsonModule}.

(** Truth value of a list: not empty. *)
Definition truthy {T : Type} (l : list T) : bool :=
  match l with [] => false | _ => true end.

(** Truth value of [self.head]: [None] is false, a header record (a class
    without [__bool__] or [__len__]) is true. *)
Definition head_truthy (h : option GedcomHead) : bool :=
  match h with None => false | Some _ => true end.

(** [export[name] = {}] followed by one assignment per record. *)
Definition export_collection {T : Type} `{HasXref T} `{Exportable T}
  (empty_fields : bool) (records : list T) : json :=
  JDict (fold_left
           (fun d r => dict_set d (get_xref r) (export_data empty_fields r))
           records []).

Definition export_json (empty_fields : bool) (self : GedcomParser) : json :=
  let d0 := [] in
  let d1 :=
    if empty_fields || head_truthy (head self)
    then dict_set d0 (Some "head")
           match head self with
           | Some h => export_data empty_fields h
           | None => JStr ""
           end
    else d0 in
  let d2 :=
    if empty_fields || truthy (individuals self)
    then dict_set d1 (Some "individuals")
           (export_collection empty_fields (individuals self))
    else d1 in
  let d3 :=
    if empty_fields || truthy (families self)
    then dict_set d2 (Some "families")
           (export_collection empty_fields (families self))
    else d2 in
  let d4 :=
    if empty_fields || truthy (sources self)
    then dict_set d3 (Some "sources")
           (export_collection empty_fields (sources self))
    else d3 in
  let d5 :=
    if empty_fields || truthy (objects self)
    then dict_set d4 (Some "objects")
           (export_collection empty_fields (objects self))
    else d4 in
  let d6 :=
    if empty_fields || truthy (repositories self)
    then dict_set d5 (Some "repositories")
           (export_collection empty_fields (repositories self))
    else d5 in
  JDict d6.

(** [for r in records: content += r.extract_gedcom()] *)
Definition extract_all {T : Type} `{Exportable T} (records : list T)
  : string :=
  fold_left (fun content r => (content ++ extract_gedcom r)%string)
    records "".

Definition trailer : string := "0 TRLR" ++ String "010" "".

Definition export_gedcom (self : GedcomParser) : string :=
  ((match head self with
    | Some h => extract_gedcom h
    | None => ""
    end)
   ++ extract_all (individuals self)
   ++ extract_all (families self)
   ++ extract_all (sources self)
   ++ extract_all (objects self)
   ++ extract_all (repositories self)
   ++ trailer)%string.

(** [format not in ["json", "gedcom"]] *)
Definition supported (format : string) : bool :=
  String.eqb format "json" || String.eqb format "gedcom".

Definition export (format : string) (empty_fields : bool)
  (self : GedcomParser) : result string :=
  if negb (supported format)
  then Err (FormatException ("Format " ++ format ++ " is not supported."))
  else if String.eqb format "json"
       then Ok (dumps (export_json empty_fields self))
       else Ok (export_gedcom self).

End Exporter.

(** ** Removal of an individual *)




(** ** Notions the statements below use *)

(** The first space-separated token of a line and the tokens after it. *)
Definition first_token (line : string) : string :=
  hd "" (PyStr.split " " line).

Definition later_tokens (line : string) : list string :=
  tl (PyStr.split " " line).

(** A token that is a non-negative integer in plain decimal notation. *)
Definition nonneg_decimal (tok : string) : bool :=
  negb (String.eqb tok "")
  && forallb PyStr.is_digit (list_ascii_of_string tok).

(** A token within the digit limit of [int]. *)
Definition within_limit (tok : string) : bool :=
  (N.of_nat (String.length tok) <=? PyStr.int_max_str_digits)%N.

Definition decimal_value (tok : string) : Z :=
  fold_left (fun acc c => (10 * acc + PyStr.digit_value c)%Z)
    (list_ascii_of_string tok) 0%Z.

(** The tokens after the level hold a tag: one token, or a cross-reference
    (a token that starts with the sigil) and one more token. *)
Definition has_tag (chars : list string) : bool :=
  match chars with
  | [] => false
  | c :: rest =>
      if PyStr.startswith "@" c
      then match rest with [] => false | _ => true end
      else true
  end.

(** The tokenizer as the specification words it: a first token that is not
    a non-negative integer is rejected, any other line gets that integer as
    its level. *)
Definition tokenizer_claim (line : string) : Prop :=
  (nonneg_decimal (first_token line) = false ->
   parse_line line = Err ValueError)
  /\ (nonneg_decimal (first_token line) = true ->
      exists p, parse_line line = Ok p
                /\ level p = decimal_value (first_token line)).

(** A line is fit for the level check when it is blank or tokenizes. *)
Definition tokenises (line : string) : bool :=
  is_blank line
  || match parse_line line with Ok _ => true | Err _ => false end.

(** The level of the nearest non-blank line of [pre], 0 when there is none:
    what a following line is compared with. *)
Definition prev_level (pre : list string) : Z :=
  fold_left
    (fun cur l =>
       if is_blank l then cur
       else match parse_line l with Ok p => level p | Err _ => cur end)
    pre 0%Z.

(** The line [l] that follows the lines [pre] is a non-blank line whose
    level exceeds the previous non-blank line's level plus one. *)
Definition violates (pre : list string) (l : string) : bool :=
  negb (is_blank l)
  && match parse_line l with
     | Ok p => (level p >? prev_level pre + 1)%Z
     | Err _ => false
     end.

(** None of [lines], which follow [pre], violates the nesting. *)
Fixpoint no_violation (pre lines : list string) : bool :=
  match lines with
  | [] => true
  | l :: rest => negb (violates pre l) && no_violation (pre ++ [l]) rest
  end.

(** The level check as the specification words it, for every file. *)
Definition verify_claim (file : string) : Prop :=
  let lines := PyStr.split "010" file in
  (forall pre l post,
      lines = pre ++ l :: post ->
      no_violation [] pre = true -> violates pre l = true ->
      verify file
      = Ok (mkVerifyResult StatusError
              ("Invalid level on line " ++ PyStr.str_nat (S (length pre))
               ++ ": " ++ l)))
  /\ (no_violation [] lines = true ->
      verify file = Ok (mkVerifyResult StatusOk "")).




(** A string without the character [sep]. *)
Fixpoint free_of (sep : ascii) (s : string) : bool :=
  match s with
  | EmptyString => true
  | String c rest => negb (Ascii.eqb c sep) && free_of sep rest
  end.

(** A string without blanks. *)
Fixpoint blank_free (s : string) : bool :=
  match s with
  | EmptyString => true
  | String c rest => negb (PyStr.isspace c) && blank_free rest
  end.

(** The name shape ["First Middle /Last/"]: a token has no slash and no
    blank. *)
Definition name_token (s : string) : bool := free_of "/" s && blank_free s.

Definition get_name (i : GedcomIndividual) : string := export_name i.
Definition get_first_name (i : GedcomIndividual) : string :=
  export_first_name i.
Definition get_last_name (i : GedcomIndividual) : string :=
  export_last_name i.

(** The input without its blank lines, every line ended by a line feed. *)
Definition blank_normalised (file : string) : string :=
  PyStr.flatten
    (map (fun l => (l ++ String "010" "")%string)
       (filter (fun l => negb (is_blank l)) (PyStr.split "010" file))).

(** The round trip as the specification words it: whatever the absent
    classes do, exporting what [parse] accepted gives the input back, its
    blank lines apart. *)
Definition round_trip_claim (file : string) : Prop :=
  forall (E : ElementModule)
         (Xh : Exportable GedcomHead) (Xi : Exportable GedcomIndividual)
         (Xf : Exportable GedcomFamily) (Xs : Exportable GedcomSource)
         (Xo : Exportable GedcomObject) (Xr : Exportable GedcomRepository)
         (J : JsonModule) (self self' : GedcomParser) (r : Collections),
    parse file self = (Ok r, self') ->
    export "gedcom" true self' = Ok (blank_normalised file).

(** ** The top-level groups of a file *)

(** The groups [parse] forms: a line of level 0 or less opens a group, the
    lines of positive level after it are its buffer. *)
Fixpoint group_lines (lines : list string) (current : ParsedLine)
  (element_lines : list string) : result (list (ParsedLine * list string)) :=
  match lines with
  | [] => Ok [(current, element_lines)]
  | line :: rest =>
      if is_blank line then group_lines rest current element_lines
      else
        p <- parse_line line ;;
        if (level p >? 0)%Z
        then group_lines rest current (element_lines ++ [line])
        else gs <- group_lines rest p [] ;; Ok ((current, element_lines) :: gs)
  end.

Definition top_level_groups (file : string)
  : result (list (ParsedLine * list string)) :=
  let lines := PyStr.split "010" file in
  first <- py_index lines 0 ;;
  current <- parse_line first ;;
  group_lines (tl lines) current [].

(** The groups whose tag is [t], in input order. *)
Definition select (t : string) (gs : list (ParsedLine * list string))
  : list (ParsedLine * list string) :=
  filter (fun g => String.eqb (tag (fst g)) t) gs.

(** The records a constructor makes of a list of groups, in order; the
    first exception stops it. *)
Fixpoint construct {T : Type}
  (init : Z -> option string -> string -> list string -> result T)
  (gs : list (ParsedLine * list string)) : result (list T) :=
  match gs with
  | [] => Ok []
  | g :: rest =>
      r <- init (level (fst g)) (xref (fst g)) (tag (fst g)) (snd g) ;;
      rs <- construct init rest ;;
      Ok (r :: rs)
  end.

(** The header constructor gets the empty string for cross-reference. *)
Definition head_init `{ElementModule} (lvl : Z) (_ : option string)
  (t : string) (lines : list string) : result GedcomHead :=
  GedcomHead_init lvl (Some "") t lines.

(** The parser [self'] holds what [self] held and the records of the
    groups [gs]: each collection grown, in order, by the records of its
    tag; the header replaced by the last HEAD record, if any. *)
Definition records_of `{ElementModule} (gs : list (ParsedLine * list string))
  (self self' : GedcomParser) : Prop :=
  (exists l, construct GedcomIndividual_init (select "INDI" gs) = Ok l
             /\ individuals self' = individuals self ++ l)
  /\ (exists l, construct GedcomFamily_init (select "FAM" gs) = Ok l
                /\ families self' = families self ++ l)
  /\ (exists l, construct GedcomSource_init (select "SOUR" gs) = Ok l
                /\ sources self' = sources self ++ l)
  /\ (exists l, construct GedcomObject_init (select "OBJE" gs) = Ok l
                /\ objects self' = objects self ++ l)
  /\ (exists l, construct GedcomRepository_init (select "REPO" gs) = Ok l
                /\ repositories self' = repositories self ++ l)
  /\ (exists l, construct head_init (select "HEAD" gs) = Ok l
                /\ head self' = last (map Some l) (head self)).

(** The text of a group written plainly: the opening line as level,
    cross-reference if any, and tag, then the lines of the buffer, every
    line ended by a line feed. *)
Definition render_header (p : ParsedLine) : string :=
  (PyStr.str_Z (level p) ++ " "
   ++ match xref p with Some x => x ++ " " | None => "" end
   ++ tag p)%string.

Definition group_text (g : ParsedLine * list string) : string :=
  (render_header (fst g) ++ String "010" ""
   ++ PyStr.flatten (map (fun l => l ++ String "010" "") (snd g)))%string.

(** The serialisation of the records built from the groups [gs] gives the
    text of each group back. *)
Definition reproduces {T : Type} `{Exportable T}
  (init : Z -> option string -> string -> list string -> result T)
  (gs : list (ParsedLine * list string)) : Prop :=
  forall g rec,
    In g gs ->
    init (level (fst g)) (xref (fst g)) (tag (fst g)) (snd g) = Ok rec ->
    extract_gedcom rec = group_text g.

(** Every group of [gs] has the tag [t]. *)
Definition tagged (t : string) (gs : list (ParsedLine * list string))
  : bool :=
  forallb (fun g => String.eqb (tag (fst g)) t) gs.

(** ** A stand-in for the absent classes, to run the model on sample files *)

Module Sample.

(** The longest prefix of [lines] that lies deeper than [lvl]. *)
Fixpoint span_deeper (lvl : Z) (lines : list string)
  : list string * list string :=
  match lines with
  | [] => ([], [])
  | l :: rest =>
      match parse_line l with
      | Ok p =>
          if (level p >? lvl)%Z
          then let (deeper, others) := span_deeper lvl rest in
               (l :: deeper, others)
          else ([], lines)
      | Err _ => ([], lines)
      end
  end.

Fixpoint build_elements (fuel : nat) (lines : list string)
  : result (list GedcomElement) :=
  match fuel with
  | O => Ok []
  | S fuel =>
      match lines with
      | [] => Ok []
      | l :: rest =>
          p <- parse_line l ;;
          let (buffer, others) := span_deeper (level p) rest in
          kids <- build_elements fuel buffer ;;
          sibs <- build_elements fuel others ;;
          Ok (Element (level p) (xref p) (tag p) (value p) kids :: sibs)
      end
  end.

#[export] Instance element_module : ElementModule := {|
  parse_sub_elements := fun _ lines => build_elements (length lines) lines;
  init_properties := fun _ => Ok tt
|}.

Definition render_line (lvl : Z) (x : option string) (t v : string)
  : string :=
  (PyStr.str_Z lvl ++ " "
   ++ match x with
      | Some r => if String.eqb r "" then "" else r ++ " "
      | None => ""
      end
   ++ t ++ (if String.eqb v "" then "" else " " ++ v)
   ++ String "010" "")%string.

Fixpoint extract_element (e : GedcomElement) : string :=
  match e with
  | Element l x t v kids =>
      (render_line l x t v
       ++ String.concat "" (map extract_element kids))%string
  end.

Definition extract_root (r : GedcomRootElement) : string :=
  (render_line (root_level r) (root_xref r) (root_tag r) ""
   ++ String.concat "" (map extract_element (sub_elements r)))%string.

Definition json_of_option (o : option string) : json :=
  match o with Some v => JStr v | None => JNone end.

#[export] Instance head_exportable : Exportable GedcomHead := {|
  export_data := fun _ _ => JDict [];
  extract_gedcom := fun r => extract_root (head_root r)
|}.

#[export] Instance individual_exportable : Exportable GedcomIndividual := {|
  export_data := fun _ i =>
    JDict [(Some "name", JStr (export_name i));
           (Some "first_name", JStr (export_first_name i));
           (Some "last_name", JStr (export_last_name i));
           (Some "sex", json_of_option (export_sex i))];
  extract_gedcom := fun i => extract_root (indi_root i)
|}.

#[export] Instance family_exportable : Exportable GedcomFamily := {|
  export_data := fun _ f =>
    JDict [(Some "husband", JStr (husband f));
           (Some "wife", JStr (wife f));
           (Some "children", JList (map JStr (children f)))];
  extract_gedcom := fun f => extract_root (fam_root f)
|}.

#[export] Instance source_exportable : Exportable GedcomSource := {|
  export_data := fun _ _ => JDict [];
  extract_gedcom := fun r => extract_root (source_root r)
|}.

#[export] Instance object_exportable : Exportable GedcomObject := {|
  export_data := fun _ _ => JDict [];
  extract_gedcom := fun r => extract_root (object_root r)
|}.

#[export] Instance repository_exportable : Exportable GedcomRepository := {|
  export_data := fun _ _ => JDict [];
  extract_gedcom := fun r => extract_root (repository_root r)
|}.

Definition quote : string := String "034" EmptyString.

(** A compact writer in place of [json.dumps]. *)
Fixpoint write (j : json) : string :=
  match j with
  | JNone => "null"
  | JStr v => (quote ++ v ++ quote)%string
  | JList items => ("[" ++ String.concat ", " (map write items) ++ "]")%string
  | JDict entries =>
      ("{"
       ++ String.concat ", "
            (map (fun kv =>
                    (match fst kv with
                     | Some k => quote ++ k ++ quote
                     | None => quote ++ "null" ++ quote
                     end ++ ": " ++ write (snd kv))%string)
               entries)
       ++ "}")%string
  end.

#[export] Instance json_module : JsonModule := {| dumps := write |}.

(** [parse] and [export] run with the stand-ins. *)
Definition parse : string -> M Collections := @parse element_module.

Definition export : string -> bool -> GedcomParser -> result string :=
  @export head_exportable individual_exportable family_exportable
    source_exportable object_exportable repository_exportable json_module.

Definition line_feed : string := String "010" "".

(** [test/samples/01_simple_family_record.ged], as the test reads it. *)
Definition root_of (x t : string) : GedcomRootElement :=
  mkRoot 0 (Some x) t [].

Definition person (x name first last : string) : GedcomIndividual :=
  mkIndividual (root_of x "INDI") name first last None None None [].

Definition john : GedcomIndividual :=
  person "@I1@" "John /Travolta/" "John" "Travolta".
Definition jane : GedcomIndividual :=
  person "@I2@" "Jane /Travolta/" "Jane" "Travolta".

Definition travolta : GedcomFamily :=
  mkFamily (root_of "@F1@" "FAM") "@I1@" "@I2@" ["@I3@"] None.

Definition family_record : GedcomParser :=
  mkParser None [john; jane] [travolta] [] [] [].


(** A file with a submitter record, a tag [parse] does not dispatch. *)
Definition submitter_file : string :=
  ("0 @U1@ SUBM" ++ line_feed ++ "0 TRLR" ++ line_feed)%string.

(** A file in collection order: header, individuals, family, trailer. *)
Definition family_file : string :=
  PyStr.flatten
    (map (fun l => (l ++ line_feed)%string)
       ["0 HEAD"; "1 CHAR UTF-8";
        "0 @I1@ INDI"; "1 NAME John /Travolta/"; "1 SEX M";
        "0 @I2@ INDI"; "1 NAME Jane /Travolta/";
        "0 @F1@ FAM"; "1 HUSB @I1@"; "1 WIFE @I2@"; "1 CHIL @I3@";
        "1 MARR"; "2 DATE 01 JAN 1925";
        "0 TRLR"]).

(** A file in collection order with blank lines and no final line feed. *)
Definition spaced_file : string :=
  ("0 @I1@ INDI" ++ line_feed ++ "1 NAME John /Travolta/" ++ line_feed
   ++ "1 SEX M" ++ line_feed ++ line_feed
   ++ "0 @F1@ FAM" ++ line_feed ++ "1 HUSB @I1@" ++ line_feed
   ++ "1 CHIL @I3@" ++ line_feed ++ line_feed ++ "0 TRLR")%string.

(** A file with a line of one token after a complete record. *)
Definition late_token_file : string :=
  ("0 @I1@ INDI" ++ line_feed ++ "1 NAME John /Travolta/" ++ line_feed
   ++ "0 @F1@ FAM" ++ line_feed ++ "0" ++ line_feed ++ "1 HUSB @I1@")%string.

Definition skip_file : string :=
  ("0 HEAD" ++ line_feed ++ "2 FOO bar")%string.

End Sample.

(** ** Statistics and the other lookups *)

(** The dictionary [get_stats] returns. *)
Record Stats : Type := mkStats {
  stat_head : string;
  stat_individuals : nat;
  stat_families : nat;
  stat_sources : nat;
  stat_objects : nat;
  stat_repositories : nat
}.

Definition get_stats (self : GedcomParser) : Stats :=
  mkStats (match head self with Some _ => "OK" | None => "None" end)
    (length (individuals self)) (length (families self))
    (length (sources self)) (length (objects self))
    (length (repositories self)).

Definition find_family (self : GedcomParser) (x : string)
  : option GedcomFamily :=
  find_root_element (families self) x.

Definition find_source (self : GedcomParser) (x : string)
  : option GedcomSource :=
  find_root_element (sources self) x.

Definition find_object (self : GedcomParser) (x : string)
  : option GedcomObject :=
  find_root_element (objects self) x.

Definition find_repository (self : GedcomParser) (x : string)
  : option GedcomRepository :=
  find_root_element (repositories self) x.


(** ** The individual record of the older package: [src/elements] *)

Module Legacy.

(** The record of [src/elements/rootElements/individual.py]: the name is
    read at construction, first and last name at every call. *)
Record GedcomIndividual : Type := mkIndividual {
  level : Z;
  tag : string;
  sub_elements : list GedcomElement;
  xref : option string;
  name : string;
  birth : option GedcomCommonEvent;
  death : option GedcomCommonEvent;
  sex : option string
}.

(** What the older package calls from its own absent files,
    [src/elements/element.py] and
    [src/elements/sub_elements/commonEvent.py]: the partition of a line
    buffer into child nodes and [init_properties] of an event. *)
Class ElementModule : Type := {
  parse_sub_elements : Z -> list string -> result (list GedcomElement);
  init_properties : GedcomElement -> result unit
}.

(** [get_data()] of an event, whose class is absent. *)
Class EventModule : Type := { event_get_data : GedcomCommonEvent -> json }.

(** [__init_birth] and [__init_death] of the older class. *)
Definition init_event `{ElementModule} (t : string)
  (subs : list GedcomElement) : result (option GedcomCommonEvent) :=
  match find_sub_element t subs with
  | [] => Ok None
  | e :: _ => _ <- init_properties e ;; Ok (Some e)
  end.

(** The body of [__init__] after [super().__init__]:
    [find_sub_element("NAME")[0].value] comes first. *)
Definition individual_fields `{ElementModule} (lvl : Z) (x : option string)
  (t : string) (subs : list GedcomElement) : result GedcomIndividual :=
  first <- py_index (find_sub_element "NAME" subs) 0 ;;
  b <- init_event "BIRT" subs ;;
  d <- init_event "DEAT" subs ;;
  Ok (mkIndividual lvl t subs x (get_value first) b d (find_sex subs)).

Definition GedcomIndividual_init `{ElementModule} (lvl : Z)
  (x : option string) (t : string) (lines : list string)
  : result GedcomIndividual :=
  subs <- parse_sub_elements lvl lines ;;
  individual_fields lvl x t subs.

Definition get_name (i : GedcomIndividual) : string := name i.

Definition get_first_name (i : GedcomIndividual) : result string :=
  find_first_name (name i).

Definition get_last_name (i : GedcomIndividual) : result string :=
  find_last_name (name i).

(** [__str__] *)
Definition str (i : GedcomIndividual) : result string :=
  f <- get_first_name i ;;
  l <- get_last_name i ;;
  Ok (f ++ " " ++ l)%string.

Definition json_of_sex (o : option string) : json :=
  match o with Some v => JStr v | None => JNone end.

(** [get_data]: the entries are evaluated in the order they are written. *)
Definition get_data `{EventModule} (i : GedcomIndividual) : result json :=
  f <- get_first_name i ;;
  l <- get_last_name i ;;
  Ok (JDict
        [(Some "name", JStr (name i));
         (Some "first_name", JStr f);
         (Some "last_name", JStr l);
         (Some "sex", json_of_sex (sex i));
         (Some "birth",
          match birth i with Some e => event_get_data e | None => JStr "" end);
         (Some "death",
          match death i with Some e => event_get_data e | None => JStr "" end)]).

End Legacy.

(** ** More notions for the statements *)

(** The outcome of the level check without its message. *)
Definition verdict (r : result VerifyResult) : result Status :=
  match r with
  | Ok v => Ok (status v)
  | Err e => Err e
  end.

Definition non_blank (l : string) : bool := negb (is_blank l).

(** A non-blank line of positive level: a line [parse] puts in a buffer. *)
Definition buffer_line (l : string) : bool :=
  non_blank l
  && match parse_line l with
     | Ok p => (level p >? 0)%Z
     | Err _ => false
     end.

(** A non-blank line of level 0 or less: a line that opens a group. *)
Definition opening_line (l : string) : bool :=
  non_blank l
  && match parse_line l with
     | Ok p => negb (level p >? 0)%Z
     | Err _ => false
     end.

(** The families in which [individual] is a child. *)
Definition child_families (self : GedcomParser)
  (individual : GedcomIndividual) : list GedcomFamily :=
  filter (fun f => xref_in (get_xref individual) (children f))
    (families self).

(** [d.get(k)] on the association list of a [dict]. *)
Fixpoint dict_get (d : list (option string * json)) (k : option string)
  : option json :=
  match d with
  | [] => None
  | (k', v) :: rest => if key_eqb k' k then Some v else dict_get rest k
  end.

Definition dict_keys (d : list (option string * json))
  : list (option string) :=
  map fst d.

Definition json_entries (j : json) : list (option string * json) :=
  match j with JDict d => d | _ => [] end.

(** The number of occurrences of [sep] in [s]. *)
Fixpoint occurrences (sep : ascii) (s : string) : nat :=
  match s with
  | EmptyString => O
  | String c rest =>
      (if Ascii.eqb c sep then 1 else 0) + occurrences sep rest
  end.

(** The lines that open the groups of a file: its first line and every
    later non-blank line of level 0 or less. *)
Definition top_lines (file : string) : list string :=
  let lines := PyStr.split "010" file in
  hd "" lines :: filter opening_line (tl lines).

Definition tag_is (t : string) (l : string) : bool :=
  match parse_line l with
  | Ok p => String.eqb (tag p) t
  | Err _ => false
  end.

(** Lines as text, every line ended by a line feed. *)
Definition lines_text (ls : list string) : string :=
  PyStr.flatten (map (fun l => (l ++ String "010" "")%string) ls).

(** A group-opening line written plainly: level, cross-reference if any,
    and tag, with single spaces and nothing after the tag. *)
Definition plain (l : string) : bool :=
  match parse_line l with
  | Ok p => String.eqb (render_header p) l
  | Err _ => false
  end.

(** The group-opening lines of a file that carry the tag [t]. *)
Definition tagged_lines (t : string) (file : string) : list string :=
  filter (tag_is t) (top_lines file).

(** A record whose derived fields are those its children give. *)
Definition consistent (i : GedcomIndividual) : Prop :=
  let subs := sub_elements (indi_root i) in
  get_name i = find_name subs
  /\ find_first_name (get_name i) = Ok (get_first_name i)
  /\ find_last_name (get_name i) = Ok (get_last_name i)
  /\ free_of "/" (get_name i) = false
  /\ export_sex i = find_sex subs
  /\ export_media i = find_media subs.

(** ** More sample data *)

Module Cases.

(** An individual without NAME line, in a file that [verify] passes. *)
Definition nameless_file : string :=
  ("0 @I1@ INDI" ++ Sample.line_feed ++ "1 SEX M")%string.

(** Two individuals that share a cross-reference. *)
Definition twin : GedcomIndividual :=
  Sample.person "@I1@" "Jack /Travolta/" "Jack" "Travolta".

Definition twins : list GedcomIndividual := [Sample.john; twin].

(** A child of the sample family. *)
Definition ella : GedcomIndividual :=
  Sample.person "@I3@" "Ella /Travolta/" "Ella" "Travolta".

Definition family_with_child : GedcomParser :=
  mkParser None [Sample.john; Sample.jane; ella] [Sample.travolta] [] [] [].

Definition name_element (v : string) : GedcomElement :=
  Element 1 None "NAME" v [].

(** A stand-in for the absent modules of the older package; its event
    initialisation is not the one of [Sample]. *)
#[export] Instance legacy_module : Legacy.ElementModule := {|
  Legacy.parse_sub_elements := fun _ _ => Ok [];
  Legacy.init_properties := fun e =>
    if String.eqb (get_value e) "" then Ok tt else Err ValueError
|}.

#[export] Instance event_module : Legacy.EventModule :=
  {| Legacy.event_get_data := fun _ => JDict [] |}.

End Cases.

(** * Properties *)

(** ** Strings *)

Lemma split_not_nil (sep : ascii) (s : string) : PyStr.split sep s <> [].
Proof.
  induction s as [|c rest IH]; simpl; [discriminate|].
  destruct (Ascii.eqb c sep); [discriminate|].
  destruct (PyStr.split sep rest); [contradiction|discriminate].
Qed.

Lemma split_tokens (line : string) :
  PyStr.split " " line = first_token line :: later_tokens line.
Proof.
  unfold first_token, later_tokens.
  destruct (PyStr.split " " line) eqn:E; [|reflexivity].
  exfalso. exact (split_not_nil _ _ E).
Qed.

Lemma py_index_head {A : Type} (a : A) (l : list A) :
  py_index (a :: l) 0 = Ok a.
Proof.
  unfold py_index. cbn [Z.ltb Z.compare length].
  destruct (Z.of_nat (S (length l)) <=? 0)%Z eqn:E; [|reflexivity].
  apply Z.leb_le in E. lia.
Qed.

Lemma split_free (sep : ascii) (s : string) :
  free_of sep s = true -> PyStr.split sep s = [s].
Proof.
  induction s as [|c rest IH]; simpl; [reflexivity|].
  intros Hf. apply andb_true_iff in Hf as [Hc Hr].
  apply negb_true_iff in Hc. rewrite Hc, (IH Hr). reflexivity.
Qed.

Lemma split_app (sep : ascii) (a b : string) :
  free_of sep a = true ->
  PyStr.split sep (a ++ String sep b) = a :: PyStr.split sep b.
Proof.
  induction a as [|c rest IH]; simpl; intros Hf.
  - rewrite Ascii.eqb_refl. reflexivity.
  - apply andb_true_iff in Hf as [Hc Hr].
    apply negb_true_iff in Hc. rewrite Hc, (IH Hr). reflexivity.
Qed.

(** ** The conversion [int] on plain decimal tokens *)

Lemma digit_not_sign (c : ascii) :
  PyStr.is_digit c = true ->
  Ascii.eqb c "+" = false /\ Ascii.eqb c "-" = false
  /\ PyStr.int_space c = false.
Proof.
  intros Hd. repeat split.
  - destruct (Ascii.eqb c "+") eqn:E; [|reflexivity].
    apply Ascii.eqb_eq in E. subst c. discriminate Hd.
  - destruct (Ascii.eqb c "-") eqn:E; [|reflexivity].
    apply Ascii.eqb_eq in E. subst c. discriminate Hd.
  - unfold PyStr.is_digit in Hd. unfold PyStr.int_space.
    apply andb_true_iff in Hd as [Hlo Hhi].
    apply N.leb_le in Hlo. apply N.leb_le in Hhi.
    repeat rewrite orb_false_iff. repeat split.
    + apply andb_false_iff. right. apply N.leb_gt. lia.
    + apply N.eqb_neq. lia.
    + apply N.eqb_neq. lia.
    + apply N.eqb_neq. lia.
Qed.

Lemma digit_value_bounds (c : ascii) :
  PyStr.is_digit c = true -> (0 <= PyStr.digit_value c <= 9)%Z.
Proof.
  unfold PyStr.is_digit, PyStr.digit_value. intros Hd.
  apply andb_true_iff in Hd as [Hlo Hhi].
  apply N.leb_le in Hlo. apply N.leb_le in Hhi. lia.
Qed.

Lemma int_rskip_digits (l : list ascii) :
  forallb PyStr.is_digit l = true ->
  PyStr.int_rskip (string_of_list_ascii l) = string_of_list_ascii l.
Proof.
  induction l as [|c rest IH]; simpl; [reflexivity|].
  intros Hd. apply andb_true_iff in Hd as [Hc Hr].
  rewrite (IH Hr).
  destruct (string_of_list_ascii rest); [|reflexivity].
  destruct (digit_not_sign c Hc) as (_ & _ & Hs). rewrite Hs. reflexivity.
Qed.

Lemma int_digits_decimal (l : list ascii) (acc : Z) (b : bool) :
  forallb PyStr.is_digit l = true ->
  (b = true \/ l <> []) ->
  PyStr.int_digits acc b (string_of_list_ascii l)
  = Some (fold_left (fun a c => (10 * a + PyStr.digit_value c)%Z) l acc).
Proof.
  revert acc b. induction l as [|c rest IH]; simpl; intros acc b Hd Hb.
  - destruct Hb as [->|Hn]; [reflexivity|contradiction].
  - apply andb_true_iff in Hd as [Hc Hr]. rewrite Hc.
    apply IH; [exact Hr|left; reflexivity].
Qed.

Lemma fold_decimal_nonneg (l : list ascii) (acc : Z) :
  forallb PyStr.is_digit l = true -> (0 <= acc)%Z ->
  (0 <= fold_left (fun a c => (10 * a + PyStr.digit_value c)%Z) l acc)%Z.
Proof.
  revert acc.
  induction l as [|c rest IH]; cbn [fold_left forallb]; intros acc Hd Ha.
  - exact Ha.
  - apply andb_true_iff in Hd as [Hc Hr].
    apply IH; [exact Hr|]. pose proof (digit_value_bounds c Hc). lia.
Qed.

Lemma digit_count_digits (l : list ascii) :
  forallb PyStr.is_digit l = true ->
  PyStr.digit_count (string_of_list_ascii l) = N.of_nat (Datatypes.length l).
Proof.
  induction l as [|c rest IH]; [reflexivity|].
  cbn [forallb string_of_list_ascii PyStr.digit_count Datatypes.length].
  intros Hd. apply andb_true_iff in Hd as [Hc Hr].
  rewrite Hc, (IH Hr). lia.
Qed.

Lemma length_list_ascii (s : string) :
  Datatypes.length (list_ascii_of_string s) = String.length s.
Proof.
  induction s as [|c rest IH]; simpl; [reflexivity|].
  rewrite IH. reflexivity.
Qed.

Lemma int_decimal_literal (tok : string) :
  nonneg_decimal tok = true ->
  PyStr.int tok = PyStr.int_literal tok
  /\ PyStr.digit_count tok = N.of_nat (String.length tok)
  /\ PyStr.int_digits 0 false tok = Some (decimal_value tok)
  /\ (0 <= decimal_value tok)%Z.
Proof.
  unfold nonneg_decimal, decimal_value. intros Hn.
  apply andb_true_iff in Hn as [Hne Hd].
  assert (Hcount := digit_count_digits _ Hd).
  rewrite length_list_ascii, string_of_list_ascii_of_string in Hcount.
  split; [|split; [exact Hcount|split]];
    [| |apply fold_decimal_nonneg; [exact Hd|lia]].
  - rewrite <- (string_of_list_ascii_of_string tok).
    destruct (list_ascii_of_string tok) as [|c rest] eqn:El.
    + destruct tok; [discriminate Hne|discriminate El].
    + assert (Hd' := Hd). simpl in Hd'.
      apply andb_true_iff in Hd' as [Hc Hr].
      destruct (digit_not_sign c Hc) as (Hp & Hm & Hs).
      unfold PyStr.int.
      assert (Hl : PyStr.int_lskip (string_of_list_ascii (c :: rest))
                   = string_of_list_ascii (c :: rest)).
      { simpl. rewrite Hs. reflexivity. }
      rewrite Hl, (int_rskip_digits _ Hd). cbn [string_of_list_ascii].
      rewrite Hp, Hm. reflexivity.
  - rewrite <- (string_of_list_ascii_of_string tok) at 1.
    apply int_digits_decimal; [exact Hd|right].
    destruct tok; [discriminate Hne|discriminate].
Qed.

Lemma int_nonneg_decimal (tok : string) :
  nonneg_decimal tok = true -> within_limit tok = true ->
  PyStr.int tok = Some (decimal_value tok) /\ (0 <= decimal_value tok)%Z.
Proof.
  intros Hn Hw.
  destruct (int_decimal_literal tok Hn) as (Hi & Hc & Hd & Hpos).
  split; [|exact Hpos].
  rewrite Hi. unfold PyStr.int_literal. rewrite Hc.
  unfold within_limit in Hw. rewrite Hw. exact Hd.
Qed.

Lemma int_over_limit (tok : string) :
  nonneg_decimal tok = true -> within_limit tok = false ->
  PyStr.int tok = None.
Proof.
  intros Hn Hw.
  destruct (int_decimal_literal tok Hn) as (Hi & Hc & _ & _).
  rewrite Hi. unfold PyStr.int_literal. rewrite Hc.
  unfold within_limit in Hw. rewrite Hw. reflexivity.
Qed.

(** ** The tokenizer *)

Lemma parse_line_value_error (line : string) :
  PyStr.int (first_token line) = None -> parse_line line = Err ValueError.
Proof.
  intros Hi. unfold parse_line. rewrite split_tokens. simpl.
  unfold py_int. rewrite Hi. reflexivity.
Qed.

Lemma parse_line_index_error (line : string) (n : Z) :
  PyStr.int (first_token line) = Some n ->
  has_tag (later_tokens line) = false ->
  parse_line line = Err IndexError.
Proof.
  intros Hi Ht. unfold parse_line. rewrite split_tokens. simpl.
  unfold py_int. rewrite Hi. simpl.
  destruct (later_tokens line) as [|c rest]; [reflexivity|].
  simpl in *. destruct (PyStr.startswith "@" c); [|discriminate Ht].
  simpl. destruct rest; [reflexivity|discriminate Ht].
Qed.

Lemma parse_line_level (line : string) (n : Z) :
  PyStr.int (first_token line) = Some n ->
  has_tag (later_tokens line) = true ->
  exists p, parse_line line = Ok p /\ level p = n.
Proof.
  intros Hi Ht. unfold parse_line. rewrite split_tokens. simpl.
  unfold py_int. rewrite Hi. simpl.
  destruct (later_tokens line) as [|c rest]; [discriminate Ht|].
  simpl in *. destruct (PyStr.startswith "@" c); simpl.
  - destruct rest as [|t rest']; [discriminate Ht|].
    simpl. eexists. split; reflexivity.
  - eexists. split; reflexivity.
Qed.

Lemma parse_line_ok_inv (line : string) (p : ParsedLine) :
  parse_line line = Ok p ->
  PyStr.int (first_token line) = Some (level p)
  /\ has_tag (later_tokens line) = true.
Proof.
  intros Hp.
  destruct (PyStr.int (first_token line)) as [n|] eqn:Hi.
  - destruct (has_tag (later_tokens line)) eqn:Ht.
    + destruct (parse_line_level line n Hi Ht) as (q & Hq & Hl).
      rewrite Hp in Hq. injection Hq as <-. subst n. split; reflexivity.
    + rewrite (parse_line_index_error line n Hi Ht) in Hp. discriminate Hp.
  - rewrite (parse_line_value_error line Hi) in Hp. discriminate Hp.
Qed.

(** C4, as stated, fails: the first token of ["-1 INDI"] is not a
    non-negative integer, and the tokenizer accepts the line with level -1
    instead of raising. *)
Lemma tokenizer_claim_negative_level : ~ tokenizer_claim "-1 INDI".
Proof.
  intros [Hreject _]. specialize (Hreject eq_refl). discriminate Hreject.
Qed.

(** C4 (amended): a line whose first space-separated token [int()] rejects
    makes the tokenizer raise [ValueError]; a line whose first token
    [int()] accepts and that holds a tag gets the value of [int()] as its
    level, a negative value included; without a tag it raises [IndexError].
    A first token in plain decimal digits is accepted with its decimal
    value when it has at most 4300 digits, the limit of [int()], and makes
    the tokenizer raise [ValueError] when it has more. *)
Theorem tokenizer_level (line : string) :
  (PyStr.int (first_token line) = None -> parse_line line = Err ValueError)
  /\ (forall n, PyStr.int (first_token line) = Some n ->
        (has_tag (later_tokens line) = true ->
         exists p, parse_line line = Ok p /\ level p = n)
        /\ (has_tag (later_tokens line) = false ->
            parse_line line = Err IndexError))
  /\ (nonneg_decimal (first_token line) = true ->
      within_limit (first_token line) = true ->
      has_tag (later_tokens line) = true ->
      exists p, parse_line line = Ok p
                /\ level p = decimal_value (first_token line)
                /\ (0 <= level p)%Z)
  /\ (nonneg_decimal (first_token line) = true ->
      within_limit (first_token line) = false ->
      parse_line line = Err ValueError).
Proof.
  split; [apply parse_line_value_error|]. split; [|split].
  - intros n Hi. split.
    + apply parse_line_level. exact Hi.
    + apply parse_line_index_error with (n := n). exact Hi.
  - intros Hd Hw Ht. destruct (int_nonneg_decimal _ Hd Hw) as [Hi Hpos].
    destruct (parse_line_level line _ Hi Ht) as (p & Hp & Hl).
    exists p. repeat split; [exact Hp|exact Hl|]. rewrite Hl. exact Hpos.
  - intros Hd Hw. apply parse_line_value_error.
    exact (int_over_limit _ Hd Hw).
Qed.

Lemma tokenizer_level_witness :
  nonneg_decimal (first_token "1 NAME John /Doe/") = true
  /\ within_limit (first_token "1 NAME John /Doe/") = true
  /\ has_tag (later_tokens "1 NAME John /Doe/") = true
  /\ exists p, parse_line "1 NAME John /Doe/" = Ok p
               /\ level p = decimal_value (first_token "1 NAME John /Doe/")
               /\ (0 <= level p)%Z.
Proof.
  split; [reflexivity|]. split; [reflexivity|]. split; [reflexivity|].
  apply (proj1 (proj2 (proj2 (tokenizer_level "1 NAME John /Doe/"))));
    reflexivity.
Defined.

(** ** The level check *)

Lemma prev_level_snoc (pre : list string) (l : string) :
  prev_level (pre ++ [l])
  = if is_blank l then prev_level pre
    else match parse_line l with
         | Ok p => level p
         | Err _ => prev_level pre
         end.
Proof. unfold prev_level. rewrite fold_left_app. reflexivity. Qed.

Lemma verify_lines_clean (lines pre rest : list string) :
  forallb tokenises lines = true ->
  no_violation pre lines = true ->
  verify_lines (prev_level pre) (length pre) (lines ++ rest)
  = verify_lines (prev_level (pre ++ lines)) (length (pre ++ lines)) rest.
Proof.
  revert pre. induction lines as [|l ls IH]; intros pre Ht Hv.
  - rewrite app_nil_r. reflexivity.
  - cbn [forallb] in Ht. apply andb_true_iff in Ht as [Hl Hls].
    cbn [no_violation] in Hv. apply andb_true_iff in Hv as [Hnv Hvs].
    apply negb_true_iff in Hnv.
    specialize (IH (pre ++ [l]) Hls Hvs).
    replace (pre ++ l :: ls) with ((pre ++ [l]) ++ ls)
      by (rewrite <- app_assoc; reflexivity).
    rewrite <- IH.
    rewrite prev_level_snoc, length_app, Nat.add_1_r.
    rewrite <- app_comm_cons. simpl verify_lines.
    unfold tokenises in Hl. unfold violates in Hnv.
    destruct (is_blank l); [reflexivity|].
    cbn [orb negb andb] in Hl, Hnv.
    destruct (parse_line l) as [p|e]; [|discriminate Hl].
    cbn [bind]. rewrite Hnv. reflexivity.
Qed.

Lemma verify_lines_violation (pre : list string) (l : string)
  (post : list string) :
  violates pre l = true ->
  verify_lines (prev_level pre) (length pre) (l :: post)
  = Ok (mkVerifyResult StatusError
          ("Invalid level on line " ++ PyStr.str_nat (S (length pre))
           ++ ": " ++ l)).
Proof.
  unfold violates. intros Hv. apply andb_true_iff in Hv as [Hb Hp].
  apply negb_true_iff in Hb. cbn [verify_lines]. rewrite Hb.
  destruct (parse_line l) as [p|e]; [|discriminate Hp].
  cbn [bind]. rewrite Hp. reflexivity.
Qed.

Lemma verify_lines_raises (pre : list string) (l : string)
  (post : list string) (e : exn) :
  is_blank l = false -> parse_line l = Err e ->
  verify_lines (prev_level pre) (length pre) (l :: post) = Err e.
Proof.
  intros Hb Hp. cbn [verify_lines]. rewrite Hb, Hp. reflexivity.
Qed.

(** C7, as stated for every file, fails: the file ["0"] has no line whose
    level exceeds its predecessor's plus one, and [verify] raises
    [IndexError] instead of returning status ok. *)
Lemma verify_claim_single_token : ~ verify_claim "0".
Proof.
  intros [_ Hok]. specialize (Hok eq_refl). discriminate Hok.
Qed.

(** C7 (amended): on a file whose lines before the first violation are
    blank or tokenize, [verify] returns status error at the first non-blank
    line whose level exceeds the previous non-blank line's level (0 before
    the first one) plus one, with the message "Invalid level on line N: "
    followed by the line, N counted from 1; on a file whose lines are all
    blank or tokenize and hold no such line it returns status ok with an
    empty message; where the first line that does not pass is one the
    tokenizer rejects, [verify] raises the tokenizer's exception. *)
Theorem verify_first_violation (file : string) :
  (forall pre l post,
      PyStr.split "010" file = pre ++ l :: post ->
      forallb tokenises pre = true ->
      no_violation [] pre = true ->
      violates pre l = true ->
      verify file
      = Ok (mkVerifyResult StatusError
              ("Invalid level on line " ++ PyStr.str_nat (S (length pre))
               ++ ": " ++ l)))
  /\ (forallb tokenises (PyStr.split "010" file) = true ->
      no_violation [] (PyStr.split "010" file) = true ->
      verify file = Ok (mkVerifyResult StatusOk ""))
  /\ (forall pre l post e,
         PyStr.split "010" file = pre ++ l :: post ->
         forallb tokenises pre = true ->
         no_violation [] pre = true ->
         is_blank l = false -> parse_line l = Err e ->
         verify file = Err e).
Proof.
  unfold verify. split; [|split].
  - intros pre l post Hsplit Ht Hnv Hv. rewrite Hsplit.
    change (verify_lines 0 0 (pre ++ l :: post))
      with (verify_lines (prev_level []) (length (@nil string))
              (pre ++ l :: post)).
    rewrite (verify_lines_clean pre [] (l :: post) Ht Hnv).
    cbn [app]. apply verify_lines_violation. exact Hv.
  - intros Ht Hnv.
    rewrite <- (app_nil_r (PyStr.split "010" file)).
    change (verify_lines 0 0 (PyStr.split "010" file ++ []))
      with (verify_lines (prev_level []) (length (@nil string))
              (PyStr.split "010" file ++ [])).
    rewrite (verify_lines_clean _ [] [] Ht Hnv). reflexivity.
  - intros pre l post e Hsplit Ht Hnv Hb Hp. rewrite Hsplit.
    change (verify_lines 0 0 (pre ++ l :: post))
      with (verify_lines (prev_level []) (length (@nil string))
              (pre ++ l :: post)).
    rewrite (verify_lines_clean pre [] (l :: post) Ht Hnv).
    cbn [app]. apply verify_lines_raises; assumption.
Qed.

Lemma verify_first_violation_witness :
  verify Sample.skip_file
  = Ok (mkVerifyResult StatusError "Invalid level on line 2: 2 FOO bar").
Proof.
  apply (proj1 (verify_first_violation Sample.skip_file)
           ["0 HEAD"] "2 FOO bar" []); reflexivity.
Defined.

Lemma parse_loop_app `{ElementModule} (lines1 lines2 : list string) :
  forall (current : ParsedLine) (element_lines : list string)
         (s : GedcomParser),
    parse_loop (lines1 ++ lines2) current element_lines s
    = match parse_loop lines1 current element_lines s with
      | (Ok last, s1) => parse_loop lines2 (fst last) (snd last) s1
      | (Err e, s1) => (Err e, s1)
      end.
Proof.
  induction lines1 as [|l ls IH]; intros current element_lines s.
  - reflexivity.
  - rewrite <- app_comm_cons. cbn [parse_loop].
    destruct (is_blank l); [apply IH|].
    unfold mbind, lift. destruct (parse_line l) as [p|e]; [|reflexivity].
    destruct (level p >? 0)%Z; [apply IH|].
    destruct (create_element current element_lines s) as [[[]|e] s1];
      [apply IH|reflexivity].
Qed.

(** C10: a line of one token that [int()] accepts, such as ["0"], makes the
    tokenizer raise [IndexError] at the token after the level; [verify]
    raises it on a file that holds such a line after lines that pass, and
    [parse] raises it on a file that holds such a line, as its first line
    or as a later line that its loop reaches; the tokenizer returns only on
    lines of at least two tokens. *)
Theorem single_token_line `{ElementModule} :
  (forall line n,
      later_tokens line = [] -> PyStr.int (first_token line) = Some n ->
      line <> ""
      /\ parse_line line = Err IndexError
      /\ (forall file pre post,
             PyStr.split "010" file = pre ++ line :: post ->
             forallb tokenises pre = true -> no_violation [] pre = true ->
             verify file = Err IndexError)
      /\ (forall file post self,
             PyStr.split "010" file = line :: post ->
             parse file self = (Err IndexError, empty_parser))
      /\ (forall file first mid post current last s1 self,
             PyStr.split "010" file = first :: mid ++ line :: post ->
             parse_line first = Ok current ->
             parse_loop mid current [] empty_parser = (Ok last, s1) ->
             parse file self = (Err IndexError, s1)))
  /\ (forall line p,
         parse_line line = Ok p ->
         (2 <= length (PyStr.split " " line))%nat).
Proof.
  split.
  - intros line n Hl Hi.
    assert (Hp : parse_line line = Err IndexError).
    { apply parse_line_index_error with (n := n); [exact Hi|].
      rewrite Hl. reflexivity. }
    assert (Hne : line <> "").
    { intros ->. discriminate Hi. }
    split; [exact Hne|]. split; [exact Hp|]. split; [|split].
    + intros file pre post Hsplit Ht Hnv. unfold verify. rewrite Hsplit.
      change (verify_lines 0 0 (pre ++ line :: post))
        with (verify_lines (prev_level []) (length (@nil string))
                (pre ++ line :: post)).
      rewrite (verify_lines_clean pre [] (line :: post) Ht Hnv).
      apply verify_lines_raises; [|exact Hp].
      apply String.eqb_neq. exact Hne.
    + intros file post self Hsplit.
      unfold parse, mbind, modify, lift. rewrite Hsplit.
      cbn [py_index length Z.of_nat]. simpl. rewrite Hp. reflexivity.
    + intros file first mid post current last s1 self Hsplit Hfirst Hloop.
      unfold parse, mbind, modify, lift. rewrite Hsplit.
      cbn [py_index length Z.of_nat]. simpl. rewrite Hfirst.
      rewrite parse_loop_app, Hloop. cbn [parse_loop].
      apply String.eqb_neq in Hne. unfold is_blank. rewrite Hne.
      unfold mbind, lift. rewrite Hp. reflexivity.
  - intros line p Hp. apply parse_line_ok_inv in Hp as [_ Ht].
    rewrite split_tokens. destruct (later_tokens line); [discriminate Ht|].
    simpl. lia.
Qed.

Lemma single_token_line_witness :
  parse_line "0" = Err IndexError
  /\ verify "0" = Err IndexError
  /\ Sample.parse "0" empty_parser = (Err IndexError, empty_parser)
  /\ exists s1,
       Sample.parse Sample.late_token_file empty_parser
       = (Err IndexError, s1)
       /\ length (individuals s1) = 1%nat.
Proof.
  destruct (proj1 (@single_token_line Sample.element_module) "0" 0%Z
              eq_refl eq_refl) as (_ & Hp & Hv & Hparse & Hlater).
  split; [exact Hp|]. split; [|split].
  - apply (Hv "0" [] []); reflexivity.
  - apply (Hparse "0" []). reflexivity.
  - eexists. split.
    + eapply (Hlater Sample.late_token_file "0 @I1@ INDI"
                ["1 NAME John /Travolta/"; "0 @F1@ FAM"]
                ["1 HUSB @I1@"]); [reflexivity|reflexivity|].
      lazy. reflexivity.
    + reflexivity.
Defined.

(** ** Re-entry of [parse] *)

(** C9: [parse] starts from the empty header and collections whatever the
    parser held, so a second call on the same text gives the same outcome
    and the same collections as the first; nothing accumulates. *)
Theorem parse_twice `{ElementModule} (file : string) (self : GedcomParser) :
  parse file self = parse file empty_parser
  /\ parse file (snd (parse file self)) = parse file self
  /\ collections (snd (parse file (snd (parse file self))))
     = collections (snd (parse file self)).
Proof.
  assert (Hreset : forall s, parse file s = parse file empty_parser).
  { intros s. reflexivity. }
  split; [apply Hreset|]. split.
  - rewrite (Hreset (snd (parse file self))), (Hreset self). reflexivity.
  - rewrite (Hreset (snd (parse file self))), (Hreset self). reflexivity.
Qed.

(** ** Export formats *)

Section ExportProperties.
  Context `{Exportable GedcomHead} `{Exportable GedcomIndividual}
          `{Exportable GedcomFamily} `{Exportable GedcomSource}
          `{Exportable GedcomObject} `{Exportable GedcomRepository}
          `{JsonModule}.

(** C6: a format other than "json" and "gedcom" makes [export] raise
    [FormatException]; "json" and "gedcom" make it return a string. *)
Theorem export_formats (format : string) (empty_fields : bool)
  (self : GedcomParser) :
  (format <> "json" -> format <> "gedcom" ->
   export format empty_fields self
   = Err (FormatException ("Format " ++ format ++ " is not supported.")))
  /\ (format = "json" \/ format = "gedcom" ->
      exists content, export format empty_fields self = Ok content).
Proof.
  unfold export, supported. split.
  - intros Hj Hg. apply String.eqb_neq in Hj. apply String.eqb_neq in Hg.
    rewrite Hj, Hg. reflexivity.
  - intros [-> | ->]; cbn; eexists; reflexivity.
Qed.

End ExportProperties.

Lemma export_formats_witness :
  Sample.export "xml" true Sample.family_record
  = Err (FormatException "Format xml is not supported.")
  /\ exists content,
       Sample.export "gedcom" true Sample.family_record = Ok content.
Proof.
  split.
  - apply (proj1 (export_formats "xml" true Sample.family_record));
      discriminate.
  - apply (proj2 (export_formats "gedcom" true Sample.family_record)).
    right. reflexivity.
Defined.

(** ** Lookup and children *)

Lemma key_eqb_eq (a b : option string) : key_eqb a b = true <-> a = b.
Proof.
  destruct a as [x|], b as [y|]; simpl; split; intros E;
    try discriminate; try reflexivity.
  - apply String.eqb_eq in E. subst. reflexivity.
  - injection E as ->. apply String.eqb_refl.
Qed.

Lemma flat_map_guard {A B : Type} (p : A -> bool) (g : A -> list B)
  (l : list A) :
  flat_map (fun a => if p a then g a else []) l = flat_map g (filter p l).
Proof.
  induction l as [|a rest IH]; simpl; [reflexivity|].
  rewrite IH. destruct (p a); reflexivity.
Qed.

Lemma find_individual_none (self : GedcomParser) (x : string) :
  find_individual self x = None
  <-> (forall i, In i (individuals self) -> get_xref i <> Some x).
Proof.
  unfold find_individual, find_root_element. split.
  - intros Hn i Hin Hx.
    pose proof (find_none _ _ Hn i Hin) as Hf. cbv beta in Hf.
    apply key_eqb_eq in Hx. rewrite Hx in Hf. discriminate Hf.
  - intros Hall.
    destruct (find _ (individuals self)) as [i|] eqn:Hf; [|reflexivity].
    apply find_some in Hf as [Hin Hk]. apply key_eqb_eq in Hk.
    exfalso. exact (Hall i Hin Hk).
Qed.

Lemma find_individual_some (self : GedcomParser) (x : string)
  (i : GedcomIndividual) :
  find_individual self x = Some i ->
  In i (individuals self) /\ get_xref i = Some x.
Proof.
  unfold find_individual, find_root_element. intros Hf.
  apply find_some in Hf as [Hin Hk]. apply key_eqb_eq in Hk.
  split; assumption.
Qed.




(** ** Removal of an individual *)






(** ** The individual record *)

Lemma find_last_name_no_slash (name : string) :
  free_of "/" name = true -> find_last_name name = Err IndexError.
Proof.
  intros Hf. unfold find_last_name. rewrite (split_free _ _ Hf).
  reflexivity.
Qed.

(** C3: an individual without NAME child gets the name "" from
    [__find_name], and [__find_last_name] then raises [IndexError] on
    ["".split("/")[-2]]: the constructor does not return a record. *)
Theorem individual_without_name `{ElementModule} (lvl : Z)
  (x : option string) (t : string) (lines : list string)
  (subs : list GedcomElement) :
  parse_sub_elements lvl lines = Ok subs ->
  find_sub_element "NAME" subs = [] ->
  find_name subs = ""
  /\ find_first_name (find_name subs) = Ok ""
  /\ find_last_name (find_name subs) = Err IndexError
  /\ GedcomIndividual_init lvl x t lines = Err IndexError.
Proof.
  intros Hsubs Hname.
  assert (Hn : find_name subs = "").
  { unfold find_name. rewrite Hname. reflexivity. }
  repeat split; [exact Hn|rewrite Hn; reflexivity|rewrite Hn; reflexivity|].
  unfold GedcomIndividual_init, GedcomRootElement_init.
  rewrite Hsubs. cbn [bind]. unfold individual_fields.
  cbn [sub_elements]. rewrite Hn. reflexivity.
Qed.

Lemma individual_without_name_witness :
  @GedcomIndividual_init Sample.element_module 0 (Some "@I1@") "INDI"
    ["1 SEX M"]
  = Err IndexError.
Proof.
  apply (@individual_without_name Sample.element_module 0 (Some "@I1@")
           "INDI" ["1 SEX M"] [Element 1 None "SEX" "M" []]);
    reflexivity.
Defined.

Lemma lstrip_blank_free (s : string) :
  blank_free s = true -> PyStr.lstrip s = s.
Proof.
  destruct s as [|c rest]; simpl; [reflexivity|].
  intros Hb. apply andb_true_iff in Hb as [Hc _].
  apply negb_true_iff in Hc. rewrite Hc. reflexivity.
Qed.

Lemma rstrip_blank_free (s : string) :
  blank_free s = true -> PyStr.rstrip s = s.
Proof.
  induction s as [|c rest IH]; simpl; [reflexivity|].
  intros Hb. apply andb_true_iff in Hb as [Hc Hr].
  apply negb_true_iff in Hc. rewrite (IH Hr), Hc.
  destruct rest; reflexivity.
Qed.

Lemma strip_blank_free (s : string) :
  blank_free s = true -> PyStr.strip s = s.
Proof.
  intros Hb. unfold PyStr.strip.
  rewrite (lstrip_blank_free s Hb). apply rstrip_blank_free. exact Hb.
Qed.

Lemma blank_free_no_space (s : string) :
  blank_free s = true -> free_of " " s = true.
Proof.
  induction s as [|c rest IH]; simpl; [reflexivity|].
  intros Hb. apply andb_true_iff in Hb as [Hc Hr].
  rewrite (IH Hr), andb_true_r.
  destruct (Ascii.eqb c " ") eqn:E; [|reflexivity].
  apply Ascii.eqb_eq in E. subst c. discriminate Hc.
Qed.

Lemma append_assoc (a b c : string) :
  ((a ++ b) ++ c = a ++ (b ++ c))%string.
Proof.
  induction a as [|x rest IH]; simpl; [reflexivity|].
  rewrite IH. reflexivity.
Qed.

Lemma free_of_app (sep : ascii) (a b : string) :
  free_of sep (a ++ b) = free_of sep a && free_of sep b.
Proof.
  induction a as [|c rest IH]; simpl; [reflexivity|].
  rewrite IH. apply andb_assoc.
Qed.

(** The pieces of a name [first ++ " " ++ rest ++ "/" ++ last ++ "/"]. *)
Lemma name_pieces (first rest last : string) :
  name_token first = true -> free_of "/" rest = true ->
  free_of "/" last = true ->
  find_first_name (first ++ " " ++ rest ++ "/" ++ last ++ "/") = Ok first
  /\ find_last_name (first ++ " " ++ rest ++ "/" ++ last ++ "/")
     = Ok (PyStr.strip last).
Proof.
  unfold name_token. intros Hf Hr Hl.
  apply andb_true_iff in Hf as [Hfs Hfb].
  assert (Hsplit :
    PyStr.split "/" (first ++ " " ++ rest ++ "/" ++ last ++ "/")
    = [(first ++ " " ++ rest)%string; last; ""]).
  { replace (first ++ " " ++ rest ++ "/" ++ last ++ "/")%string
      with ((first ++ " " ++ rest) ++ String "/" (last ++ String "/" ""))%string.
    - rewrite split_app.
      + rewrite split_app by exact Hl. reflexivity.
      + rewrite free_of_app, Hfs. simpl. exact Hr.
    - rewrite append_assoc. reflexivity. }
  unfold find_first_name, find_last_name. rewrite Hsplit. split.
  - cbn [py_index length Z.of_nat]. simpl bind.
    rewrite (split_app " " first rest (blank_free_no_space _ Hfb)).
    simpl. rewrite (strip_blank_free _ Hfb). reflexivity.
  - reflexivity.
Qed.

(** C8: for a NAME value "First Middle /Last/", whose tokens hold neither
    slash nor blank, the first name is "First" and the last name is "Last",
    as functions of the name and as getters of the record built from it. *)
Theorem name_first_last (First Middle Last : string) :
  name_token First = true -> name_token Middle = true ->
  name_token Last = true ->
  let name := (First ++ " " ++ Middle ++ " /" ++ Last ++ "/")%string in
  find_first_name name = Ok First
  /\ find_last_name name = Ok Last
  /\ (forall (E : ElementModule) root i,
         find_name (sub_elements root) = name ->
         individual_fields root = Ok i ->
         get_name i = name
         /\ get_first_name i = First /\ get_last_name i = Last).
Proof.
  intros HF HM HL name.
  assert (Hname : name = (First ++ " " ++ (Middle ++ " ") ++ "/" ++ Last ++ "/")%string).
  { subst name. rewrite (append_assoc Middle). reflexivity. }
  assert (HM' : free_of "/" (Middle ++ " ") = true).
  { rewrite free_of_app. unfold name_token in HM.
    apply andb_true_iff in HM as [HMs _]. rewrite HMs. reflexivity. }
  assert (HL' := HL). unfold name_token in HL'.
  apply andb_true_iff in HL' as [HLs HLb].
  destruct (name_pieces First (Middle ++ " ") Last HF HM' HLs) as [H1 H2].
  rewrite (strip_blank_free _ HLb) in H2. rewrite <- Hname in H1, H2.
  split; [exact H1|]. split; [exact H2|].
  intros E root i Hn Hi. unfold individual_fields in Hi.
  rewrite Hn, H1, H2 in Hi. cbn [bind] in Hi.
  destruct (init_event "BIRT" (sub_elements root)) as [b|e];
    [|discriminate Hi]. cbn [bind] in Hi.
  destruct (init_event "DEAT" (sub_elements root)) as [d|e];
    [|discriminate Hi]. cbn [bind] in Hi.
  injection Hi as <-. repeat split.
Qed.

Lemma name_first_last_witness :
  find_first_name "John Joseph /Travolta/" = Ok "John"
  /\ find_last_name "John Joseph /Travolta/" = Ok "Travolta".
Proof.
  destruct (name_first_last "John" "Joseph" "Travolta"
              eq_refl eq_refl eq_refl) as (H1 & H2 & _).
  split; [exact H1|exact H2].
Defined.

(** ** Parsing into collections *)

Section ParseProperties.
  Context `{ElementModule}.

Lemma construct_app {T : Type}
  (init : Z -> option string -> string -> list string -> result T)
  (gs1 gs2 : list (ParsedLine * list string)) (l1 l2 : list T) :
  construct init gs1 = Ok l1 -> construct init gs2 = Ok l2 ->
  construct init (gs1 ++ gs2) = Ok (l1 ++ l2).
Proof.
  revert l1. induction gs1 as [|g rest IH]; simpl; intros l1 H1 H2.
  - injection H1 as <-. exact H2.
  - destruct (init _ _ _ _) as [r|e]; [|discriminate H1]. cbn [bind] in *.
    destruct (construct init rest) as [rs|e]; [|discriminate H1].
    cbn [bind] in *. injection H1 as <-.
    rewrite (IH rs eq_refl H2). reflexivity.
Qed.

Lemma records_of_nil (self : GedcomParser) : records_of [] self self.
Proof.
  unfold records_of. simpl.
  repeat split; exists []; (split; [reflexivity|]);
    try (rewrite app_nil_r; reflexivity); reflexivity.
Qed.

Lemma last_cons {A : Type} (l : list A) (a d : A) :
  last (a :: l) d = last l a.
Proof.
  revert a d. induction l as [|b rest IH]; intros a d; [reflexivity|].
  change (last (a :: b :: rest) d) with (last (b :: rest) d).
  rewrite (IH b d), (IH b a). reflexivity.
Qed.

Lemma last_app_default {A : Type} (l1 l2 : list A) (d : A) :
  last (l1 ++ l2) d = last l2 (last l1 d).
Proof.
  revert d. induction l1 as [|a rest IH]; intros d; [reflexivity|].
  rewrite <- app_comm_cons, !last_cons. apply IH.
Qed.

Lemma records_of_app (gs1 gs2 : list (ParsedLine * list string))
  (s0 s1 s2 : GedcomParser) :
  records_of gs1 s0 s1 -> records_of gs2 s1 s2 ->
  records_of (gs1 ++ gs2) s0 s2.
Proof.
  unfold records_of, select.
  intros ((i1 & Ci1 & Ei1) & (f1 & Cf1 & Ef1) & (r1 & Cr1 & Er1)
          & (o1 & Co1 & Eo1) & (p1 & Cp1 & Ep1) & (h1 & Ch1 & Eh1))
         ((i2 & Ci2 & Ei2) & (f2 & Cf2 & Ef2) & (r2 & Cr2 & Er2)
          & (o2 & Co2 & Eo2) & (p2 & Cp2 & Ep2) & (h2 & Ch2 & Eh2)).
  repeat rewrite filter_app.
  repeat split.
  - exists (i1 ++ i2). split; [apply construct_app; assumption|].
    rewrite Ei2, Ei1, app_assoc. reflexivity.
  - exists (f1 ++ f2). split; [apply construct_app; assumption|].
    rewrite Ef2, Ef1, app_assoc. reflexivity.
  - exists (r1 ++ r2). split; [apply construct_app; assumption|].
    rewrite Er2, Er1, app_assoc. reflexivity.
  - exists (o1 ++ o2). split; [apply construct_app; assumption|].
    rewrite Eo2, Eo1, app_assoc. reflexivity.
  - exists (p1 ++ p2). split; [apply construct_app; assumption|].
    rewrite Ep2, Ep1, app_assoc. reflexivity.
  - exists (h1 ++ h2). split; [apply construct_app; assumption|].
    rewrite Eh2, Eh1, map_app, last_app_default. reflexivity.
Qed.

Ltac close_collection :=
  eexists; split;
  [ reflexivity
  | cbn [individuals families sources objects repositories head
         append_individual append_family append_source append_object
         append_repository set_head map last];
    try rewrite app_nil_r; reflexivity ].

Ltac built_by Hinit :=
  unfold records_of, select, head_init; simpl; rewrite ?Hinit; cbn [bind];
  repeat split; close_collection.

Lemma create_element_records (p : ParsedLine) (ls : list string)
  (s s' : GedcomParser) :
  create_element p ls s = (Ok tt, s') -> records_of [(p, ls)] s s'.
Proof.
  unfold create_element, mbind, lift, modify, ret.
  destruct p as [lvl x t v]. cbn [level xref tag].
  destruct (String.eqb t "INDI") eqn:E1.
  { apply String.eqb_eq in E1. subst t.
    destruct (GedcomIndividual_init lvl x "INDI" ls) as [r|e] eqn:Hinit;
      intros Hc; [|discriminate Hc]. injection Hc as <-.
    built_by Hinit. }
  destruct (String.eqb t "FAM") eqn:E2.
  { apply String.eqb_eq in E2. subst t.
    destruct (GedcomFamily_init lvl x "FAM" ls) as [r|e] eqn:Hinit;
      intros Hc; [|discriminate Hc]. injection Hc as <-.
    built_by Hinit. }
  destruct (String.eqb t "HEAD") eqn:E3.
  { apply String.eqb_eq in E3. subst t.
    destruct (GedcomHead_init lvl (Some "") "HEAD" ls) as [r|e] eqn:Hinit;
      intros Hc; [|discriminate Hc]. injection Hc as <-.
    built_by Hinit. }
  destruct (String.eqb t "SOUR") eqn:E4.
  { apply String.eqb_eq in E4. subst t.
    destruct (GedcomSource_init lvl x "SOUR" ls) as [r|e] eqn:Hinit;
      intros Hc; [|discriminate Hc]. injection Hc as <-.
    built_by Hinit. }
  destruct (String.eqb t "REPO") eqn:E5.
  { apply String.eqb_eq in E5. subst t.
    destruct (GedcomRepository_init lvl x "REPO" ls) as [r|e] eqn:Hinit;
      intros Hc; [|discriminate Hc]. injection Hc as <-.
    built_by Hinit. }
  destruct (String.eqb t "OBJE") eqn:E6.
  { apply String.eqb_eq in E6. subst t.
    destruct (GedcomObject_init lvl x "OBJE" ls) as [r|e] eqn:Hinit;
      intros Hc; [|discriminate Hc]. injection Hc as <-.
    built_by Hinit. }
  intros Hc. injection Hc as <-.
  unfold records_of, select. cbn [filter fst snd tag].
  rewrite E1, E2, E3, E4, E5, E6. cbn [construct].
  repeat split; close_collection.
Qed.

Lemma parse_loop_groups (lines : list string) :
  forall (current : ParsedLine) (element_lines : list string)
         (s s' : GedcomParser) (last_line : ParsedLine)
         (last_lines : list string),
    parse_loop lines current element_lines s
    = (Ok (last_line, last_lines), s') ->
    exists gs,
      group_lines lines current element_lines
      = Ok (gs ++ [(last_line, last_lines)])
      /\ records_of gs s s'.
Proof.
  induction lines as [|line rest IH];
    intros current element_lines s s' last_line last_lines Hloop.
  - cbn in Hloop. injection Hloop as <- <- <-.
    exists []. split; [reflexivity|apply records_of_nil].
  - cbn [parse_loop group_lines] in *.
    destruct (is_blank line); [apply IH; exact Hloop|].
    unfold mbind, lift in Hloop.
    destruct (parse_line line) as [p|e]; [|discriminate Hloop].
    cbn [bind].
    destruct (level p >? 0)%Z; [apply IH; exact Hloop|].
    destruct (create_element current element_lines s) as [[[]|e] s1] eqn:Hc;
      [|discriminate Hloop].
    apply create_element_records in Hc.
    destruct (IH _ _ _ _ _ _ Hloop) as (gs & Hg & Hr).
    exists ((current, element_lines) :: gs). split.
    + rewrite Hg. reflexivity.
    + apply (records_of_app [(current, element_lines)] gs s s1 s');
        assumption.
Qed.

Lemma records_of_empty (gs : list (ParsedLine * list string))
  (self' : GedcomParser) :
  records_of gs empty_parser self' ->
  construct GedcomIndividual_init (select "INDI" gs) = Ok (individuals self')
  /\ construct GedcomFamily_init (select "FAM" gs) = Ok (families self')
  /\ construct GedcomSource_init (select "SOUR" gs) = Ok (sources self')
  /\ construct GedcomObject_init (select "OBJE" gs) = Ok (objects self')
  /\ construct GedcomRepository_init (select "REPO" gs)
     = Ok (repositories self')
  /\ (exists hs, construct head_init (select "HEAD" gs) = Ok hs
                 /\ head self' = last (map Some hs) None).
Proof.
  intros ((li & Ci & Ei) & (lf & Cf & Ef) & (ls & Cs & Es)
          & (lo & Co & Eo) & (lr & Cr & Er) & (lh & Ch & Eh)).
  change (individuals self' = li) in Ei. change (families self' = lf) in Ef.
  change (sources self' = ls) in Es. change (objects self' = lo) in Eo.
  change (repositories self' = lr) in Er.
  change (head self' = last (map Some lh) None) in Eh.
  rewrite Ei, Ef, Es, Eo, Er.
  repeat (split; [assumption|]). exists lh. split; assumption.
Qed.

End ParseProperties.

(** ** Export after parse *)

Lemma append_nil_r (a : string) : (a ++ "")%string = a.
Proof.
  induction a as [|x rest IH]; simpl; [reflexivity|].
  rewrite IH. reflexivity.
Qed.

Lemma flatten_app (l1 l2 : list string) :
  PyStr.flatten (l1 ++ l2)
  = (PyStr.flatten l1 ++ PyStr.flatten l2)%string.
Proof.
  induction l1 as [|a rest IH]; simpl; [reflexivity|].
  rewrite IH, append_assoc. reflexivity.
Qed.

Lemma select_app (t : string) (l1 l2 : list (ParsedLine * list string)) :
  select t (l1 ++ l2) = select t l1 ++ select t l2.
Proof. apply filter_app. Qed.

Lemma select_same (t : string) (l : list (ParsedLine * list string)) :
  tagged t l = true -> select t l = l.
Proof.
  unfold tagged, select. induction l as [|g rest IH]; simpl; [reflexivity|].
  intros Ht. apply andb_true_iff in Ht as [Hg Hr].
  rewrite Hg, (IH Hr). reflexivity.
Qed.

Lemma select_other (t t' : string) (l : list (ParsedLine * list string)) :
  tagged t' l = true -> String.eqb t' t = false -> select t l = [].
Proof.
  unfold tagged, select. intros Ht Hne.
  induction l as [|g rest IH]; simpl; [reflexivity|].
  simpl in Ht. apply andb_true_iff in Ht as [Hg Hr].
  apply String.eqb_eq in Hg. rewrite Hg, Hne. exact (IH Hr).
Qed.

(** ** The text of the groups *)

Lemma lines_text_app (a b : list string) :
  lines_text (a ++ b) = (lines_text a ++ lines_text b)%string.
Proof. unfold lines_text. rewrite map_app. apply flatten_app. Qed.

Lemma parse_line_non_blank (l : string) (p : ParsedLine) :
  parse_line l = Ok p -> is_blank l = false.
Proof.
  intros Hp. unfold is_blank. destruct (String.eqb l "") eqn:E;
    [|reflexivity].
  apply String.eqb_eq in E. subst l. discriminate Hp.
Qed.

Lemma group_lines_text (lines : list string) :
  forall (current : ParsedLine) (element_lines : list string)
         (gs : list (ParsedLine * list string)),
    group_lines lines current element_lines = Ok gs ->
    forallb plain (filter opening_line lines) = true ->
    exists buffer rest,
      gs = (current, buffer) :: rest
      /\ lines_text (element_lines ++ filter non_blank lines)
         = (lines_text buffer ++ PyStr.flatten (map group_text rest))%string.
Proof.
  induction lines as [|l ls IH]; intros current element_lines gs Hg Hplain.
  - injection Hg as <-. exists element_lines, [].
    split; [reflexivity|]. cbn [filter map PyStr.flatten fold_right].
    rewrite app_nil_r, append_nil_r. reflexivity.
  - cbn [group_lines] in Hg. cbn [filter] in *.
    unfold opening_line at 1 in Hplain. unfold non_blank at 1 in Hplain.
    unfold non_blank at 1.
    destruct (is_blank l) eqn:Hb; cbn [negb andb] in *.
    + exact (IH _ _ _ Hg Hplain).
    + destruct (parse_line l) as [p|e] eqn:Hp; [|discriminate Hg].
      cbn [bind] in Hg.
      destruct (level p >? 0)%Z; cbn [negb] in Hplain.
      * destruct (IH _ _ _ Hg Hplain) as (buffer & rest & -> & Ht).
        exists buffer, rest. split; [reflexivity|].
        rewrite <- Ht, <- app_assoc. reflexivity.
      * destruct (group_lines ls p []) as [gs'|e] eqn:Hg'; [|discriminate Hg].
        cbn [bind] in Hg. injection Hg as <-.
        cbn [forallb] in Hplain. apply andb_true_iff in Hplain as [Hl Hrest].
        destruct (IH _ _ _ Hg' Hrest) as (buffer & rest & -> & Ht).
        exists element_lines, ((p, buffer) :: rest).
        split; [reflexivity|].
        unfold plain in Hl. rewrite Hp in Hl. apply String.eqb_eq in Hl.
        cbn [Datatypes.app] in Ht.
        rewrite lines_text_app. f_equal.
        change (lines_text (l :: filter non_blank ls))
          with ((l ++ String "010" "") ++ lines_text (filter non_blank ls))%string.
        rewrite Ht.
        change (PyStr.flatten (map group_text ((p, buffer) :: rest)))
          with ((render_header p ++ String "010" "" ++ lines_text buffer)
                ++ PyStr.flatten (map group_text rest))%string.
        rewrite Hl, !append_assoc. reflexivity.
Qed.

Lemma normalised_groups (file : string)
  (gs : list (ParsedLine * list string)) :
  top_level_groups file = Ok gs ->
  forallb plain (top_lines file) = true ->
  blank_normalised file = PyStr.flatten (map group_text gs).
Proof.
  unfold top_level_groups, top_lines, blank_normalised.
  destruct (PyStr.split "010" file) as [|first rest] eqn:Hsplit;
    [exfalso; exact (split_not_nil _ _ Hsplit)|].
  rewrite py_index_head. cbn [bind tl hd forallb].
  destruct (parse_line first) as [current|e] eqn:Hp; [|discriminate].
  cbn [bind]. intros Hg Hplain.
  apply andb_true_iff in Hplain as [Hfirst Hrest].
  destruct (group_lines_text _ _ _ _ Hg Hrest) as (buffer & more & -> & Ht).
  cbn [Datatypes.app] in Ht.
  cbn [filter]. rewrite (parse_line_non_blank _ _ Hp). cbn [negb].
  change (PyStr.flatten
            (map (fun l => (l ++ String "010" "")%string)
               (first :: filter (fun l => negb (is_blank l)) rest)))
    with ((first ++ String "010" "")
          ++ lines_text (filter non_blank rest))%string.
  rewrite Ht.
  change (PyStr.flatten (map group_text ((current, buffer) :: more)))
    with ((render_header current ++ String "010" "" ++ lines_text buffer)
          ++ PyStr.flatten (map group_text more))%string.
  unfold plain in Hfirst. rewrite Hp in Hfirst.
  apply String.eqb_eq in Hfirst. rewrite Hfirst, !append_assoc.
  reflexivity.
Qed.

Section RoundTrip.
  Context `{ElementModule}
          `{Exportable GedcomHead} `{Exportable GedcomIndividual}
          `{Exportable GedcomFamily} `{Exportable GedcomSource}
          `{Exportable GedcomObject} `{Exportable GedcomRepository}
          `{JsonModule}.

Lemma extract_all_from {T : Type} `{Exportable T} (records : list T)
  (content : string) :
  fold_left (fun c r => (c ++ extract_gedcom r)%string) records content
  = (content ++ PyStr.flatten (map extract_gedcom records))%string.
Proof.
  revert content. induction records as [|r rest IH]; simpl; intros content.
  - rewrite append_nil_r. reflexivity.
  - rewrite IH, append_assoc. reflexivity.
Qed.

Lemma extract_all_flatten {T : Type} `{Exportable T} (records : list T) :
  extract_all records = PyStr.flatten (map extract_gedcom records).
Proof. unfold extract_all. rewrite extract_all_from. reflexivity. Qed.

Lemma construct_reproduces {T : Type} `{Exportable T}
  (init : Z -> option string -> string -> list string -> result T)
  (gs : list (ParsedLine * list string)) (records : list T) :
  construct init gs = Ok records -> reproduces init gs ->
  map extract_gedcom records = map group_text gs.
Proof.
  revert records. induction gs as [|g rest IH]; simpl; intros records Hc Hr.
  - injection Hc as <-. reflexivity.
  - destruct (init _ _ _ _) as [r|e] eqn:Hi; [|discriminate Hc].
    cbn [bind] in Hc.
    destruct (construct init rest) as [rs|e]; [|discriminate Hc].
    cbn [bind] in Hc. injection Hc as <-. simpl.
    rewrite (Hr g r (or_introl eq_refl) Hi).
    rewrite (IH rs eq_refl); [reflexivity|].
    intros g' rec Hin. apply Hr. right. exact Hin.
Qed.

Lemma construct_length {T : Type}
  (init : Z -> option string -> string -> list string -> result T)
  (gs : list (ParsedLine * list string)) (records : list T) :
  construct init gs = Ok records -> length records = length gs.
Proof.
  revert records. induction gs as [|g rest IH]; simpl; intros records Hc.
  - injection Hc as <-. reflexivity.
  - destruct (init _ _ _ _) as [r|e]; [|discriminate Hc].
    cbn [bind] in Hc.
    destruct (construct init rest) as [rs|e]; [|discriminate Hc].
    cbn [bind] in Hc. injection Hc as <-. simpl.
    rewrite (IH rs eq_refl). reflexivity.
Qed.

Lemma export_gedcom_text (empty_fields : bool) (self : GedcomParser) :
  export "gedcom" empty_fields self
  = Ok ((match head self with
         | Some h => extract_gedcom h
         | None => ""
         end)
        ++ extract_all (individuals self)
        ++ extract_all (families self)
        ++ extract_all (sources self)
        ++ extract_all (objects self)
        ++ extract_all (repositories self)
        ++ trailer)%string.
Proof. reflexivity. Qed.

Lemma parse_records (file : string) (self self' : GedcomParser)
  (r : Collections) :
  parse file self = (Ok r, self') ->
  exists gs, top_level_groups file = Ok gs
             /\ records_of gs empty_parser self'
             /\ r = collections self'.
Proof.
  unfold parse, top_level_groups, mbind, modify, lift.
  destruct (py_index (PyStr.split "010" file) 0) as [first|e];
    [|intros Hp; discriminate Hp].
  cbn [bind].
  destruct (parse_line first) as [current|e]; [|intros Hp; discriminate Hp].
  cbn [bind].
  destruct (parse_loop (tl (PyStr.split "010" file)) current [] empty_parser)
    as [[[last_line last_lines]|e] s1] eqn:Hloop;
    [|intros Hp; discriminate Hp].
  cbn [fst snd].
  destruct (create_element last_line last_lines s1) as [[[]|e] s2] eqn:Hc;
    [|intros Hp; discriminate Hp].
  intros Hp. injection Hp as <- <-.
  apply parse_loop_groups in Hloop as (gs & Hg & Hr).
  apply create_element_records in Hc.
  exists (gs ++ [(last_line, last_lines)]).
  split; [exact Hg|]. split; [|reflexivity].
  apply (records_of_app gs [(last_line, last_lines)] empty_parser s1 s2);
    assumption.
Qed.

Ltac pick_groups :=
  repeat rewrite select_app;
  repeat match goal with
    | Ht : tagged ?t ?l = true |- context [select ?t ?l] =>
        rewrite (select_same t l Ht)
    | Ht : tagged ?u ?l = true |- context [select ?t ?l] =>
        rewrite (select_other t u l Ht eq_refl)
    end;
  repeat rewrite app_nil_r; cbn [app].

Lemma select_trailer (t : string) (g : ParsedLine * list string) :
  tag (fst g) = "TRLR" -> String.eqb "TRLR" t = false -> select t [g] = [].
Proof.
  intros Hg Hne. unfold select. cbn [filter]. rewrite Hg, Hne. reflexivity.
Qed.

Lemma round_trip_groups
  (heads indis fams sours objes repos : list (ParsedLine * list string))
  (trlr : ParsedLine * list string) (self' : GedcomParser) :
  records_of (heads ++ indis ++ fams ++ sours ++ objes ++ repos ++ [trlr])
    empty_parser self' ->
  (length heads <= 1)%nat ->
  tagged "HEAD" heads = true -> tagged "INDI" indis = true ->
  tagged "FAM" fams = true -> tagged "SOUR" sours = true ->
  tagged "OBJE" objes = true -> tagged "REPO" repos = true ->
  tag (fst trlr) = "TRLR" ->
  reproduces head_init heads ->
  reproduces GedcomIndividual_init indis ->
  reproduces GedcomFamily_init fams ->
  reproduces GedcomSource_init sours ->
  reproduces GedcomObject_init objes ->
  reproduces GedcomRepository_init repos ->
  export_gedcom self'
  = (PyStr.flatten
       (map group_text (heads ++ indis ++ fams ++ sours ++ objes ++ repos))
     ++ trailer)%string.
Proof.
  intros Hrec Hlen Th Ti Tf Ts To Tr Ttr Rh Ri Rf Rs Ro Rr.
  destruct (records_of_empty _ _ Hrec)
    as (Ci & Cf & Cs & Co & Cr & (lh & Ch & Eh)).
  assert (Si : select "INDI"
                 (heads ++ indis ++ fams ++ sours ++ objes ++ repos ++ [trlr])
               = indis).
  { pick_groups; rewrite (select_trailer _ _ Ttr) by reflexivity;
      rewrite ?app_nil_r; reflexivity. }
  assert (Sf : select "FAM"
                 (heads ++ indis ++ fams ++ sours ++ objes ++ repos ++ [trlr])
               = fams).
  { pick_groups; rewrite (select_trailer _ _ Ttr) by reflexivity;
      rewrite ?app_nil_r; reflexivity. }
  assert (Ss : select "SOUR"
                 (heads ++ indis ++ fams ++ sours ++ objes ++ repos ++ [trlr])
               = sours).
  { pick_groups; rewrite (select_trailer _ _ Ttr) by reflexivity;
      rewrite ?app_nil_r; reflexivity. }
  assert (So : select "OBJE"
                 (heads ++ indis ++ fams ++ sours ++ objes ++ repos ++ [trlr])
               = objes).
  { pick_groups; rewrite (select_trailer _ _ Ttr) by reflexivity;
      rewrite ?app_nil_r; reflexivity. }
  assert (Sr : select "REPO"
                 (heads ++ indis ++ fams ++ sours ++ objes ++ repos ++ [trlr])
               = repos).
  { pick_groups; rewrite (select_trailer _ _ Ttr) by reflexivity;
      rewrite ?app_nil_r; reflexivity. }
  assert (Sh : select "HEAD"
                 (heads ++ indis ++ fams ++ sours ++ objes ++ repos ++ [trlr])
               = heads).
  { pick_groups; rewrite (select_trailer _ _ Ttr) by reflexivity;
      rewrite ?app_nil_r; reflexivity. }
  rewrite Si in Ci. rewrite Sf in Cf. rewrite Ss in Cs. rewrite So in Co.
  rewrite Sr in Cr. rewrite Sh in Ch.
  unfold export_gedcom.
  rewrite !extract_all_flatten.
  rewrite (construct_reproduces _ _ _ Ci Ri), (construct_reproduces _ _ _ Cf Rf),
    (construct_reproduces _ _ _ Cs Rs), (construct_reproduces _ _ _ Co Ro),
    (construct_reproduces _ _ _ Cr Rr).
  assert (Hhead : match head self' with
                  | Some h => extract_gedcom h
                  | None => ""
                  end = PyStr.flatten (map group_text heads)).
  { rewrite Eh. pose proof (construct_reproduces _ _ _ Ch Rh) as Hm.
    pose proof (construct_length _ _ _ Ch) as Hl.
    destruct heads as [|g [|g' rest]]; [| |simpl in Hlen; lia].
    - destruct lh; [reflexivity|discriminate Hl].
    - destruct lh as [|h [|h' lh']]; try discriminate Hl.
      simpl in Hm. injection Hm as Hm. simpl. rewrite Hm, append_nil_r.
      reflexivity. }
  rewrite Hhead, !map_app, !flatten_app, !append_assoc. reflexivity.
Qed.

(** C1 (amended): after [parse] accepted a text, the collections hold the
    records of the top-level groups of each dispatched tag, in input order,
    and the header the last HEAD record; [export(format="gedcom")] emits the
    header, then the individuals, families, sources, objects and
    repositories, and ends with the line "0 TRLR"; groups of any other tag
    are not emitted.  The result is the original text up to blank-line
    normalisation (blank lines dropped, every line ended by a line feed)
    when the groups stand in that order (at most one header, then the
    individuals, families, sources, objects, repositories, then the trailer
    "0 TRLR" with nothing after it), every group-opening line is written
    plainly, and the serialisation of each of those records gives its group
    back; it is the original text itself when the text is those groups
    written plainly and the trailer line. *)
Theorem export_after_parse (file : string) (self self' : GedcomParser)
  (r : Collections) (empty_fields : bool) :
  parse file self = (Ok r, self') ->
  exists gs,
    top_level_groups file = Ok gs
    /\ r = collections self'
    /\ construct GedcomIndividual_init (select "INDI" gs)
       = Ok (individuals self')
    /\ construct GedcomFamily_init (select "FAM" gs) = Ok (families self')
    /\ construct GedcomSource_init (select "SOUR" gs) = Ok (sources self')
    /\ construct GedcomObject_init (select "OBJE" gs) = Ok (objects self')
    /\ construct GedcomRepository_init (select "REPO" gs)
       = Ok (repositories self')
    /\ (exists hs, construct head_init (select "HEAD" gs) = Ok hs
                   /\ head self' = last (map Some hs) None)
    /\ export "gedcom" empty_fields self'
       = Ok ((match head self' with
              | Some h => extract_gedcom h
              | None => ""
              end)
             ++ extract_all (individuals self')
             ++ extract_all (families self')
             ++ extract_all (sources self')
             ++ extract_all (objects self')
             ++ extract_all (repositories self')
             ++ trailer)%string
    /\ (forall heads indis fams sours objes repos trlr,
           gs = heads ++ indis ++ fams ++ sours ++ objes ++ repos ++ [trlr] ->
           (length heads <= 1)%nat ->
           tagged "HEAD" heads = true -> tagged "INDI" indis = true ->
           tagged "FAM" fams = true -> tagged "SOUR" sours = true ->
           tagged "OBJE" objes = true -> tagged "REPO" repos = true ->
           tag (fst trlr) = "TRLR" ->
           reproduces head_init heads ->
           reproduces GedcomIndividual_init indis ->
           reproduces GedcomFamily_init fams ->
           reproduces GedcomSource_init sours ->
           reproduces GedcomObject_init objes ->
           reproduces GedcomRepository_init repos ->
           file
           = (PyStr.flatten
                (map group_text
                   (heads ++ indis ++ fams ++ sours ++ objes ++ repos))
              ++ trailer)%string ->
           export "gedcom" empty_fields self' = Ok file)
    /\ (forall heads indis fams sours objes repos trlr,
           gs = heads ++ indis ++ fams ++ sours ++ objes ++ repos ++ [trlr] ->
           (length heads <= 1)%nat ->
           tagged "HEAD" heads = true -> tagged "INDI" indis = true ->
           tagged "FAM" fams = true -> tagged "SOUR" sours = true ->
           tagged "OBJE" objes = true -> tagged "REPO" repos = true ->
           tag (fst trlr) = "TRLR" ->
           render_header (fst trlr) = "0 TRLR" -> snd trlr = [] ->
           reproduces head_init heads ->
           reproduces GedcomIndividual_init indis ->
           reproduces GedcomFamily_init fams ->
           reproduces GedcomSource_init sours ->
           reproduces GedcomObject_init objes ->
           reproduces GedcomRepository_init repos ->
           forallb plain (top_lines file) = true ->
           export "gedcom" empty_fields self' = Ok (blank_normalised file)).
Proof.
  intros Hparse.
  destruct (parse_records file self self' r Hparse) as (gs & Hg & Hrec & Hr).
  exists gs. split; [exact Hg|]. split; [exact Hr|].
  destruct (records_of_empty _ _ Hrec)
    as (Ci & Cf & Cs & Co & Cr & Hhead).
  repeat (split; [assumption|]).
  split; [apply export_gedcom_text|].
  split.
  - intros heads indis fams sours objes repos trlr Hgs Hlen Th Ti Tf Ts To Tr
           Ttr Rh Ri Rf Rs Ro Rr Hfile.
    subst gs. rewrite export_gedcom_text. f_equal. rewrite Hfile.
    apply (round_trip_groups heads indis fams sours objes repos trlr self');
      assumption.
  - intros heads indis fams sours objes repos trlr Hgs Hlen Th Ti Tf Ts To Tr
           Ttr Htrl Hbuf Rh Ri Rf Rs Ro Rr Hplain.
    rewrite (normalised_groups file gs Hg Hplain). subst gs.
    rewrite export_gedcom_text. f_equal.
    replace (heads ++ indis ++ fams ++ sours ++ objes ++ repos ++ [trlr])
      with ((heads ++ indis ++ fams ++ sours ++ objes ++ repos) ++ [trlr])
      by (rewrite <- !app_assoc; reflexivity).
    rewrite map_app, flatten_app.
    assert (Hexp : export_gedcom self'
                   = (PyStr.flatten
                        (map group_text
                           (heads ++ indis ++ fams ++ sours ++ objes ++ repos))
                      ++ trailer)%string).
    { apply (round_trip_groups heads indis fams sours objes repos trlr
               self'); assumption. }
    unfold export_gedcom in Hexp. rewrite Hexp. f_equal.
    destruct trlr as [tp tl0]. cbn [fst snd] in *. subst tl0.
    cbn [map PyStr.flatten fold_right]. unfold group_text. cbn [fst snd].
    rewrite Htrl. reflexivity.
Qed.

End RoundTrip.

(** C1, as stated, fails: [parse] accepts a file with a submitter record,
    and the export is the trailer line alone, whatever the absent classes
    do: a record of a tag that [parse] does not dispatch is lost. *)
Lemma round_trip_claim_submitter : ~ round_trip_claim Sample.submitter_file.
Proof.
  intros Hc.
  specialize (Hc Sample.element_module Sample.head_exportable
                Sample.individual_exportable Sample.family_exportable
                Sample.source_exportable Sample.object_exportable
                Sample.repository_exportable Sample.json_module
                empty_parser empty_parser (collections empty_parser)
                eq_refl).
  discriminate Hc.
Qed.

Lemma export_after_parse_witness :
  exists self' r,
    Sample.parse Sample.spaced_file empty_parser = (Ok r, self')
    /\ length (individuals self') = 1%nat
    /\ Sample.export "gedcom" true self'
       = Ok (blank_normalised Sample.spaced_file).
Proof.
  destruct (Sample.parse Sample.spaced_file empty_parser)
    as [[r|e] self'] eqn:Hparse; [|vm_compute in Hparse; discriminate Hparse].
  exists self', r. split; [reflexivity|].
  destruct (@export_after_parse Sample.element_module Sample.head_exportable
              Sample.individual_exportable Sample.family_exportable
              Sample.source_exportable Sample.object_exportable
              Sample.repository_exportable Sample.json_module
              Sample.spaced_file empty_parser self' r true Hparse)
    as (gs & Hg & _ & Hi & _ & _ & _ & _ & _ & _ & _ & Hround).
  vm_compute in Hg. injection Hg as <-.
  split.
  - rewrite (construct_length _ _ _ Hi). reflexivity.
  - apply (Hround
             []
             [(mkParsedLine 0 (Some "@I1@") "INDI" "",
               ["1 NAME John /Travolta/"; "1 SEX M"])]
             [(mkParsedLine 0 (Some "@F1@") "FAM" "",
               ["1 HUSB @I1@"; "1 CHIL @I3@"])]
             [] [] []
             (mkParsedLine 0 None "TRLR" "", []));
      try reflexivity; try (simpl; lia);
      try (intros g rec Hin; simpl in Hin; contradiction).
    + intros g rec [<-|[]] Hinit. vm_compute in Hinit.
      injection Hinit as <-. reflexivity.
    + intros g rec [<-|[]] Hinit. vm_compute in Hinit.
      injection Hinit as <-. reflexivity.
Defined.

(** * Further properties of the code *)

(** ** The tokenizer keeps the line *)

Lemma split_pieces_free (sep : ascii) (s : string) :
  Forall (fun w => free_of sep w = true) (PyStr.split sep s).
Proof.
  induction s as [|c rest IH]; simpl.
  - constructor; [reflexivity|constructor].
  - destruct (Ascii.eqb c sep) eqn:E.
    + constructor; [reflexivity|exact IH].
    + destruct (PyStr.split sep rest) as [|w ws].
      * constructor; [simpl; rewrite E; reflexivity|constructor].
      * inversion IH as [|? ? Hw Hws]; subst.
        constructor; [simpl; rewrite E, Hw; reflexivity|exact Hws].
Qed.


Lemma later_tokens_free (line : string) :
  Forall (fun w => free_of " " w = true) (later_tokens line).
Proof.
  pose proof (split_pieces_free " " line) as Hf.
  rewrite split_tokens in Hf. inversion Hf; assumption.
Qed.

(** X1: The tokenizer's cross-reference always starts with the sigil, a tag
    that comes without cross-reference never does, and neither holds a space. *)
Theorem parse_line_tokens (line : string) (p : ParsedLine) :
  parse_line line = Ok p ->
  (forall x, xref p = Some x ->
             PyStr.startswith "@" x = true /\ free_of " " x = true)
  /\ (xref p = None -> PyStr.startswith "@" (tag p) = false)
  /\ free_of " " (tag p) = true
  /\ PyStr.int (first_token line) = Some (level p).
Proof.
  intros Hp. pose proof (later_tokens_free line) as Hf.
  destruct (parse_line_ok_inv line p Hp) as [Hi _].
  unfold parse_line in Hp. rewrite split_tokens in Hp. simpl in Hp.
  unfold py_int in Hp. rewrite Hi in Hp. simpl in Hp.
  destruct (later_tokens line) as [|c rest]; [discriminate Hp|].
  simpl in Hp. inversion Hf as [|? ? Hc Hrest]; subst.
  destruct (PyStr.startswith "@" c) eqn:Hs; simpl in Hp.
  - destruct rest as [|t rest']; [discriminate Hp|]. simpl in Hp.
    inversion Hrest as [|? ? Ht _]; subst.
    injection Hp as <-. cbn [xref tag level] in *.
    split; [intros y Hy; injection Hy as <-; split; assumption|].
    split; [discriminate|]. split; [exact Ht|exact Hi].
  - injection Hp as <-. cbn [xref tag level] in *.
    split; [discriminate|].
    split; [intros _; exact Hs|]. split; [exact Hc|exact Hi].
Qed.

Lemma parse_line_tokens_witness :
  PyStr.startswith "@" "@I1@" = true /\ free_of " " "INDI" = true.
Proof.
  destruct (parse_line_tokens "0 @I1@ INDI"
              (mkParsedLine 0 (Some "@I1@") "INDI" "") eq_refl)
    as (Hx & _ & Ht & _).
  split; [apply (Hx "@I1@" eq_refl)|exact Ht].
Defined.



(** ** What [verify] returns, read backwards *)

Lemma verify_lines_inv (lines : list string) :
  forall (pre : list string) (r : VerifyResult),
    verify_lines (prev_level pre) (length pre) lines = Ok r ->
    (status r = StatusOk /\ message r = ""
     /\ forallb tokenises lines = true /\ no_violation pre lines = true)
    \/ (status r = StatusError
        /\ exists mid l post,
            lines = mid ++ l :: post
            /\ forallb tokenises mid = true
            /\ no_violation pre mid = true
            /\ violates (pre ++ mid) l = true
            /\ message r
               = ("Invalid level on line "
                  ++ PyStr.str_nat (S (length (pre ++ mid)))
                  ++ ": " ++ l)%string).
Proof.
  induction lines as [|l ls IH]; intros pre r Hv.
  - injection Hv as <-. left. repeat split.
  - assert (Hstep : forall r',
               verify_lines (prev_level (pre ++ [l])) (length (pre ++ [l])) ls
               = Ok r' ->
               violates pre l = false -> tokenises l = true ->
               (status r' = StatusOk /\ message r' = ""
                /\ forallb tokenises (l :: ls) = true
                /\ no_violation pre (l :: ls) = true)
               \/ (status r' = StatusError
                   /\ exists mid l0 post,
                       l :: ls = mid ++ l0 :: post
                       /\ forallb tokenises mid = true
                       /\ no_violation pre mid = true
                       /\ violates (pre ++ mid) l0 = true
                       /\ message r'
                          = ("Invalid level on line "
                             ++ PyStr.str_nat (S (length (pre ++ mid)))
                             ++ ": " ++ l0)%string)).
    { intros r' Hr Hnv Ht. destruct (IH _ _ Hr) as [(Hs & Hm & Hts & Hvs)|
        (Hs & mid & l0 & post & El & Hts & Hvs & Hviol & Hm)].
      - left. cbn [forallb no_violation]. rewrite Ht, Hnv, Hts, Hvs.
        repeat split; assumption.
      - right. split; [exact Hs|]. exists (l :: mid), l0, post.
        cbn [forallb no_violation]. rewrite Ht, Hnv, Hts, Hvs, El.
        rewrite <- app_assoc in Hviol, Hm.
        repeat split; assumption. }
    cbn [verify_lines] in Hv. unfold violates, tokenises in Hstep.
    rewrite prev_level_snoc, length_app, Nat.add_1_r in Hstep.
    destruct (is_blank l) eqn:Hb.
    + apply Hstep; [exact Hv|reflexivity|reflexivity].
    + destruct (parse_line l) as [p|e] eqn:Hp; [|discriminate Hv].
      cbn [bind] in Hv.
      destruct (level p >? prev_level pre + 1)%Z eqn:Hl.
      * injection Hv as <-. right. split; [reflexivity|].
        exists [], l, ls. rewrite app_nil_r. unfold violates.
        rewrite Hb, Hp, Hl. repeat split.
      * apply Hstep; [exact Hv|reflexivity|reflexivity].
Qed.

(** X3: When [verify] returns status ok, every line is blank or tokenizes and
    none violates the nesting, and the message is empty; when it returns
    status error, the message names the first violating line, and the lines
    before it are blank or tokenize and pass. *)
Theorem verify_inversion (file : string) (r : VerifyResult) :
  verify file = Ok r ->
  (status r = StatusOk /\ message r = ""
   /\ forallb tokenises (PyStr.split "010" file) = true
   /\ no_violation [] (PyStr.split "010" file) = true)
  \/ (status r = StatusError
      /\ exists pre l post,
          PyStr.split "010" file = pre ++ l :: post
          /\ forallb tokenises pre = true
          /\ no_violation [] pre = true
          /\ violates pre l = true
          /\ message r
             = ("Invalid level on line " ++ PyStr.str_nat (S (length pre))
                ++ ": " ++ l)%string).
Proof.
  unfold verify. intros Hv.
  exact (verify_lines_inv (PyStr.split "010" file) [] r Hv).
Qed.

Lemma verify_inversion_witness :
  exists pre l post,
    PyStr.split "010" Sample.skip_file = pre ++ l :: post
    /\ violates pre l = true.
Proof.
  destruct (verify_inversion Sample.skip_file
              (mkVerifyResult StatusError
                 "Invalid level on line 2: 2 FOO bar") eq_refl)
    as [(Hs & _)|(_ & pre & l & post & Hsplit & _ & _ & Hv & _)].
  - discriminate Hs.
  - exists pre, l, post. split; assumption.
Defined.

Lemma verdict_skip_blank (lines : list string) :
  forall (cur : Z) (n m : nat),
    verdict (verify_lines cur n lines)
    = verdict (verify_lines cur m (filter non_blank lines)).
Proof.
  induction lines as [|l ls IH]; intros cur n m; [reflexivity|].
  cbn [verify_lines filter]. unfold non_blank at 1.
  destruct (is_blank l) eqn:Hb; cbn [negb].
  - apply IH.
  - cbn [verify_lines]. rewrite Hb.
    destruct (parse_line l) as [p|e]; [|reflexivity]. cbn [bind].
    destruct (level p >? cur + 1)%Z; [reflexivity|apply IH].
Qed.

(** X4: Blank lines do not count for the level check: two files with the same
    non-blank lines, in the same order, get the same status or the same
    exception (the line number in the message apart). *)
Theorem verify_ignores_blank_lines (file1 file2 : string) :
  filter non_blank (PyStr.split "010" file1)
  = filter non_blank (PyStr.split "010" file2) ->
  verdict (verify file1) = verdict (verify file2).
Proof.
  intros Hsame. unfold verify.
  rewrite (verdict_skip_blank (PyStr.split "010" file1) 0 0 0),
          (verdict_skip_blank (PyStr.split "010" file2) 0 0 0), Hsame.
  reflexivity.
Qed.

Lemma verify_ignores_blank_lines_witness :
  verdict (verify (String "010" Sample.skip_file))
  = verdict (verify Sample.skip_file).
Proof.
  apply (verify_ignores_blank_lines (String "010" Sample.skip_file)
           Sample.skip_file).
  reflexivity.
Defined.

(** ** [parse] and [verify] on the same text *)

Section ParseErrors.
Context `{ElementModule}.

Lemma parse_loop_error (lines : list string) :
  forall (current : ParsedLine) (element_lines : list string)
         (s s' : GedcomParser) (e : exn),
    parse_loop lines current element_lines s = (Err e, s') ->
    (exists l, In l lines /\ is_blank l = false /\ parse_line l = Err e)
    \/ (exists p ls s0, create_element p ls s0 = (Err e, s')).
Proof.
  induction lines as [|l ls IH]; intros current element_lines s s' e Hloop.
  - discriminate Hloop.
  - cbn [parse_loop] in Hloop.
    assert (Hrec : forall c el s1,
               parse_loop ls c el s1 = (Err e, s') ->
               (exists l0, In l0 (l :: ls) /\ is_blank l0 = false
                           /\ parse_line l0 = Err e)
               \/ (exists p ls0 s0, create_element p ls0 s0 = (Err e, s'))).
    { intros c el s1 Hr. destruct (IH _ _ _ _ _ Hr) as [(l0 & Hin & Hb & Hp)|Hc].
      - left. exists l0. split; [right; exact Hin|split; assumption].
      - right. exact Hc. }
    destruct (is_blank l) eqn:Hb; [exact (Hrec _ _ _ Hloop)|].
    unfold mbind, lift in Hloop.
    destruct (parse_line l) as [p|e0] eqn:Hp.
    + destruct (level p >? 0)%Z; [exact (Hrec _ _ _ Hloop)|].
      destruct (create_element current element_lines s) as [[[]|e1] s1] eqn:Hc.
      * exact (Hrec _ _ _ Hloop).
      * injection Hloop as <- <-. right. exists current, element_lines, s.
        exact Hc.
    + injection Hloop as <- <-. left. exists l.
      split; [left; reflexivity|split; assumption].
Qed.

(** X5: Every text makes [parse] tokenize its first line, blank or not: on a
    text whose first line is empty, the empty text included, [parse] raises
    [ValueError] and leaves the parser emptied, while [verify] passes over
    that line. *)
Theorem parse_blank_first_line (file : string) (rest : list string)
  (self : GedcomParser) :
  PyStr.split "010" file = "" :: rest ->
  parse file self = (Err ValueError, empty_parser)
  /\ verdict (verify file) = verdict (verify_lines 0 0 rest).
Proof.
  intros Hsplit. split.
  - unfold parse, mbind, modify, lift. rewrite Hsplit, py_index_head.
    reflexivity.
  - unfold verify. rewrite Hsplit.
    rewrite (verdict_skip_blank ("" :: rest) 0 0 0),
            (verdict_skip_blank rest 0 0 0). reflexivity.
Qed.

Lemma create_element_error_state (p : ParsedLine) (ls : list string)
  (s s1 : GedcomParser) (e : exn) :
  create_element p ls s = (Err e, s1) -> s1 = s.
Proof.
  unfold create_element, mbind, lift, modify, ret.
  destruct (String.eqb (tag p) "INDI").
  { destruct (GedcomIndividual_init _ _ _ _); intros Hc;
      [discriminate Hc|injection Hc as _ <-; reflexivity]. }
  destruct (String.eqb (tag p) "FAM").
  { destruct (GedcomFamily_init _ _ _ _); intros Hc;
      [discriminate Hc|injection Hc as _ <-; reflexivity]. }
  destruct (String.eqb (tag p) "HEAD").
  { destruct (GedcomHead_init _ _ _ _); intros Hc;
      [discriminate Hc|injection Hc as _ <-; reflexivity]. }
  destruct (String.eqb (tag p) "SOUR").
  { destruct (GedcomSource_init _ _ _ _); intros Hc;
      [discriminate Hc|injection Hc as _ <-; reflexivity]. }
  destruct (String.eqb (tag p) "REPO").
  { destruct (GedcomRepository_init _ _ _ _); intros Hc;
      [discriminate Hc|injection Hc as _ <-; reflexivity]. }
  destruct (String.eqb (tag p) "OBJE").
  { destruct (GedcomObject_init _ _ _ _); intros Hc;
      [discriminate Hc|injection Hc as _ <-; reflexivity]. }
  intros Hc. discriminate Hc.
Qed.

Lemma group_lines_total (lines : list string) :
  forall (current : ParsedLine) (element_lines : list string),
    forallb tokenises lines = true ->
    exists gs, group_lines lines current element_lines = Ok gs.
Proof.
  induction lines as [|l ls IH]; intros current element_lines Ht.
  - eexists. reflexivity.
  - cbn [forallb] in Ht. apply andb_true_iff in Ht as [Hl Hls].
    cbn [group_lines]. unfold tokenises in Hl.
    destruct (is_blank l); [apply IH; exact Hls|]. cbn [orb] in Hl.
    destruct (parse_line l) as [p|e]; [|discriminate Hl]. cbn [bind].
    destruct (level p >? 0)%Z; [apply IH; exact Hls|].
    destruct (IH p [] Hls) as [gs' ->]. eexists. reflexivity.
Qed.

Lemma parse_loop_failure (lines : list string) :
  forall (current : ParsedLine) (element_lines : list string)
         (gs : list (ParsedLine * list string)) (s s' : GedcomParser)
         (e : exn),
    group_lines lines current element_lines = Ok gs ->
    parse_loop lines current element_lines s = (Err e, s') ->
    exists front g back,
      gs = front ++ g :: back
      /\ records_of front s s'
      /\ create_element (fst g) (snd g) s' = (Err e, s').
Proof.
  induction lines as [|l ls IH];
    intros current element_lines gs s s' e Hg Hloop.
  - discriminate Hloop.
  - cbn [group_lines parse_loop] in *.
    destruct (is_blank l); [exact (IH _ _ _ _ _ _ Hg Hloop)|].
    unfold mbind, lift in Hloop.
    destruct (parse_line l) as [p|e0]; [|discriminate Hg].
    cbn [bind] in Hg.
    destruct (level p >? 0)%Z; [exact (IH _ _ _ _ _ _ Hg Hloop)|].
    destruct (group_lines ls p []) as [gs'|e0] eqn:Hg'; [|discriminate Hg].
    cbn [bind] in Hg. injection Hg as <-.
    destruct (create_element current element_lines s) as [[[]|e1] s1] eqn:Hc.
    + destruct (IH _ _ _ _ _ _ Hg' Hloop) as (front & g & back & -> & Hr & Hf).
      exists ((current, element_lines) :: front), g, back.
      split; [reflexivity|]. split; [|exact Hf].
      apply (records_of_app [(current, element_lines)] front s s1 s');
        [apply create_element_records; exact Hc|exact Hr].
    + injection Hloop as <- <-.
      pose proof (create_element_error_state _ _ _ _ _ Hc) as ->.
      exists [], (current, element_lines), gs'.
      split; [reflexivity|]. split; [apply records_of_nil|exact Hc].
Qed.

(** X6: After [verify] returned status ok on a text whose first line is
    not blank, the tokenizer does not fail in [parse]: the text splits
    into its top-level groups, and an exception of [parse] is the one that
    [__create_element] raises on one of these groups, the parser then
    holding the records of the groups before it and nothing else. *)
Theorem parse_after_verify (file : string) (r : VerifyResult)
  (self s' : GedcomParser) (e : exn) :
  verify file = Ok r -> status r = StatusOk ->
  is_blank (hd "" (PyStr.split "010" file)) = false ->
  parse file self = (Err e, s') ->
  exists gs front g back,
    top_level_groups file = Ok gs
    /\ gs = front ++ g :: back
    /\ records_of front empty_parser s'
    /\ create_element (fst g) (snd g) s' = (Err e, s').
Proof.
  intros Hv Hs Hfirst Hparse.
  destruct (verify_lines_inv _ [] r Hv) as [(_ & _ & Ht & _)|(Hs' & _)];
    [|rewrite Hs in Hs'; discriminate Hs'].
  unfold top_level_groups.
  destruct (PyStr.split "010" file) as [|first rest] eqn:Hsplit;
    [exfalso; exact (split_not_nil _ _ Hsplit)|].
  cbn [hd] in Hfirst. cbn [forallb] in Ht.
  apply andb_true_iff in Ht as [Ht1 Htr].
  unfold tokenises in Ht1. rewrite Hfirst in Ht1. cbn [orb] in Ht1.
  unfold parse, mbind, modify, lift in Hparse.
  rewrite Hsplit, py_index_head in Hparse. cbn [tl] in Hparse.
  rewrite py_index_head. cbn [bind tl].
  destruct (parse_line first) as [current|e0]; [|discriminate Ht1].
  cbn [bind].
  destruct (group_lines_total rest current [] Htr) as [gs Hg].
  rewrite Hg. exists gs.
  destruct (parse_loop rest current [] empty_parser)
    as [[[last_line last_lines]|e1] s1] eqn:Hloop.
  - cbn [fst snd] in Hparse.
    destruct (create_element last_line last_lines s1) as [[[]|e2] s2] eqn:Hc;
      [discriminate Hparse|].
    injection Hparse as <- <-.
    pose proof (create_element_error_state _ _ _ _ _ Hc) as ->.
    destruct (parse_loop_groups _ _ _ _ _ _ _ Hloop) as (front & Hg2 & Hr).
    rewrite Hg in Hg2. injection Hg2 as ->.
    exists front, (last_line, last_lines), [].
    split; [reflexivity|]. split; [reflexivity|]. split; [exact Hr|exact Hc].
  - injection Hparse as <- <-.
    destruct (parse_loop_failure _ _ _ _ _ _ _ Hg Hloop)
      as (front & g & back & Hgs & Hr & Hf).
    exists front, g, back.
    split; [reflexivity|]. split; [exact Hgs|]. split; [exact Hr|exact Hf].
Qed.

End ParseErrors.

Lemma parse_blank_first_line_witness :
  Sample.parse "" Sample.family_record = (Err ValueError, empty_parser)
  /\ verdict (verify "") = Ok StatusOk.
Proof.
  destruct (@parse_blank_first_line Sample.element_module "" []
              Sample.family_record eq_refl) as [Hp Hv].
  split; [exact Hp|exact Hv].
Defined.

Lemma parse_after_verify_witness :
  exists gs front g back,
    top_level_groups Cases.nameless_file = Ok gs
    /\ gs = front ++ g :: back
    /\ @records_of Sample.element_module front empty_parser empty_parser
    /\ @create_element Sample.element_module (fst g) (snd g) empty_parser
       = (Err IndexError, empty_parser).
Proof.
  apply (@parse_after_verify Sample.element_module Cases.nameless_file
           (mkVerifyResult StatusOk "") empty_parser empty_parser IndexError);
    reflexivity.
Defined.

(** ** The groups of a parsed file *)

Lemma group_lines_partition (lines : list string) :
  forall (current : ParsedLine) (element_lines : list string)
         (gs : list (ParsedLine * list string)),
    group_lines lines current element_lines = Ok gs ->
    flat_map snd gs = element_lines ++ filter buffer_line lines
    /\ map (fun g => Ok (fst g)) gs
       = Ok current :: map parse_line (filter opening_line lines).
Proof.
  induction lines as [|l ls IH]; intros current element_lines gs Hg.
  - injection Hg as <-. simpl. rewrite !app_nil_r. split; reflexivity.
  - cbn [group_lines] in Hg. cbn [filter].
    unfold buffer_line at 1, opening_line at 1, non_blank.
    destruct (is_blank l) eqn:Hb; cbn [negb andb].
    + apply IH. exact Hg.
    + destruct (parse_line l) as [p|e] eqn:Hp; [|discriminate Hg].
      cbn [bind] in Hg. destruct (level p >? 0)%Z eqn:Hl; cbn [negb].
      * destruct (IH _ _ _ Hg) as [Hbuf Hopen]. split; [|exact Hopen].
        rewrite Hbuf, <- app_assoc. reflexivity.
      * destruct (group_lines ls p []) as [gs'|e] eqn:Hg';
          [|discriminate Hg].
        cbn [bind] in Hg. injection Hg as <-.
        destruct (IH _ _ _ Hg') as [Hbuf Hopen]. cbn [flat_map map fst snd].
        rewrite Hbuf, Hopen, Hp. split; reflexivity.
Qed.

Lemma select_count (t : string) (gs : list (ParsedLine * list string)) :
  forall ls : list string,
    map (fun g => Ok (fst g)) gs = map parse_line ls ->
    length (select t gs) = length (filter (tag_is t) ls).
Proof.
  unfold select. induction gs as [|g rest IH]; intros ls Hm.
  - destruct ls; [reflexivity|discriminate Hm].
  - destruct ls as [|l ls']; [discriminate Hm|].
    cbn [map] in Hm. injection Hm as Hl Hrest.
    cbn [filter]. unfold tag_is at 1. rewrite <- Hl.
    destruct (String.eqb (tag (fst g)) t); cbn [length];
      rewrite (IH ls' Hrest); reflexivity.
Qed.

Section ParsedGroups.
Context `{ElementModule}.

Lemma top_level_groups_lines (file : string)
  (gs : list (ParsedLine * list string)) :
  top_level_groups file = Ok gs ->
  flat_map snd gs = filter buffer_line (tl (PyStr.split "010" file))
  /\ map (fun g => Ok (fst g)) gs = map parse_line (top_lines file).
Proof.
  unfold top_level_groups, top_lines.
  destruct (PyStr.split "010" file) as [|first rest] eqn:Hsplit;
    [exfalso; exact (split_not_nil _ _ Hsplit)|].
  rewrite py_index_head. cbn [bind tl hd].
  destruct (parse_line first) as [current|e] eqn:Hp; [|discriminate].
  cbn [bind]. intros Hg.
  destruct (group_lines_partition _ _ _ _ Hg) as [Hbuf Hopen].
  split; [exact Hbuf|]. cbn [map]. rewrite Hp. exact Hopen.
Qed.

(** X7: The grouping of a successful [parse] loses, duplicates and
    reorders nothing: the buffers of the groups it forms, taken in order,
    are exactly the non-blank lines of positive level after the first
    line, and there is one group per opening line (the first line and
    every later non-blank line of level 0 or less); the records of each
    collection are built from the groups of its tag, each with the buffer
    of its group, a group of any other tag is given to no constructor, and
    a blank line is in no buffer. *)
Theorem parse_partition (file : string) (self self' : GedcomParser)
  (r : Collections) :
  parse file self = (Ok r, self') ->
  exists gs,
    top_level_groups file = Ok gs
    /\ records_of gs empty_parser self'
    /\ flat_map snd gs = filter buffer_line (tl (PyStr.split "010" file))
    /\ map (fun g => Ok (fst g)) gs = map parse_line (top_lines file)
    /\ length gs = length (top_lines file).
Proof.
  intros Hparse.
  destruct (parse_records file self self' r Hparse) as (gs & Hg & Hrec & _).
  destruct (top_level_groups_lines file gs Hg) as [Hbuf Hopen].
  exists gs. split; [exact Hg|]. split; [exact Hrec|].
  split; [exact Hbuf|]. split; [exact Hopen|].
  transitivity (length (map (fun g => @Ok ParsedLine (fst g)) gs)).
  - symmetry. apply length_map.
  - rewrite Hopen. apply length_map.
Qed.

(** X8: After a successful [parse], [get_stats] counts, for each collection,
    the group-opening lines of the file that carry its tag, and reports the
    header as "OK" exactly when one of them carries HEAD. *)
Theorem get_stats_after_parse (file : string) (self self' : GedcomParser)
  (r : Collections) :
  parse file self = (Ok r, self') ->
  get_stats self'
  = mkStats (match tagged_lines "HEAD" file with [] => "None" | _ => "OK" end)
      (length (tagged_lines "INDI" file))
      (length (tagged_lines "FAM" file))
      (length (tagged_lines "SOUR" file))
      (length (tagged_lines "OBJE" file))
      (length (tagged_lines "REPO" file)).
Proof.
  intros Hparse.
  destruct (parse_records file self self' r Hparse) as (gs & Hg & Hrec & _).
  destruct (top_level_groups_lines file gs Hg) as [_ Hopen].
  destruct (records_of_empty gs self' Hrec)
    as (Ci & Cf & Cs & Co & Cr & (hs & Ch & Eh)).
  unfold get_stats, tagged_lines.
  rewrite (construct_length _ _ _ Ci), (construct_length _ _ _ Cf),
    (construct_length _ _ _ Cs), (construct_length _ _ _ Co),
    (construct_length _ _ _ Cr).
  rewrite !(select_count _ gs (top_lines file) Hopen).
  f_equal. rewrite Eh.
  pose proof (construct_length _ _ _ Ch) as Hl.
  rewrite (select_count _ gs (top_lines file) Hopen) in Hl.
  destruct (filter (tag_is "HEAD") (top_lines file)) as [|a l].
  - destruct hs; [reflexivity|discriminate Hl].
  - destruct hs as [|h hs']; [discriminate Hl|].
    cbn [map]. rewrite last_cons.
    assert (Hsome : forall (l0 : list GedcomHead) (d : GedcomHead),
               exists h', last (map Some l0) (Some d) = Some h').
    { induction l0 as [|x xs IHx]; intros d; [exists d; reflexivity|].
      cbn [map]. rewrite last_cons. apply IHx. }
    destruct (Hsome hs' h) as [h' ->]. reflexivity.
Qed.

End ParsedGroups.

Lemma parse_partition_witness :
  exists gs,
    top_level_groups Sample.family_file = Ok gs /\ length gs = 5%nat.
Proof.
  destruct (Sample.parse Sample.family_file empty_parser)
    as [[r|e] self'] eqn:Hparse; [|vm_compute in Hparse; discriminate Hparse].
  destruct (@parse_partition Sample.element_module Sample.family_file
              empty_parser self' r Hparse) as (gs & Hg & _ & _ & _ & Hl).
  exists gs. split; [exact Hg|]. rewrite Hl. reflexivity.
Defined.

Lemma get_stats_after_parse_witness :
  exists self',
    get_stats self' = mkStats "OK" 2 1 0 0 0.
Proof.
  destruct (Sample.parse Sample.family_file empty_parser)
    as [[r|e] self'] eqn:Hparse; [|vm_compute in Hparse; discriminate Hparse].
  exists self'.
  rewrite (@get_stats_after_parse Sample.element_module Sample.family_file
             empty_parser self' r Hparse).
  reflexivity.
Defined.

(** ** Lookup by cross-reference *)

(** X9: A lookup returns the first record of the collection that carries the
    cross-reference, also when later records carry it too, and [None] exactly
    when no record carries it; the five [find_*] methods are this lookup on
    their collection. *)
Theorem find_root_element_first {T : Type} `{HasXref T}
  (collection : list T) (x : string) :
  (forall pre e post,
      collection = pre ++ e :: post ->
      (forall a, In a pre -> get_xref a <> Some x) ->
      get_xref e = Some x ->
      find_root_element collection x = Some e)
  /\ (find_root_element collection x = None
      <-> forall a, In a collection -> get_xref a <> Some x)
  /\ (forall e, find_root_element collection x = Some e ->
                In e collection /\ get_xref e = Some x).
Proof.
  unfold find_root_element. split; [|split].
  - intros pre e post -> Hpre He.
    induction pre as [|a rest IH]; cbn [Datatypes.app find]; cbv beta.
    + rewrite (proj2 (key_eqb_eq _ _) He). reflexivity.
    + destruct (key_eqb (get_xref a) (Some x)) eqn:Ea.
      * apply key_eqb_eq in Ea. exfalso.
        exact (Hpre a (or_introl eq_refl) Ea).
      * apply IH. intros b Hb. apply Hpre. right. exact Hb.
  - split.
    + intros Hn a Hin Hx. pose proof (find_none _ _ Hn a Hin) as Hf.
      cbv beta in Hf. apply key_eqb_eq in Hx. rewrite Hx in Hf.
      discriminate Hf.
    + intros Hall.
      destruct (find _ collection) as [e|] eqn:Hf; [|reflexivity].
      apply find_some in Hf as [Hin Hk]. apply key_eqb_eq in Hk.
      exfalso. exact (Hall e Hin Hk).
  - intros e Hf. apply find_some in Hf as [Hin Hk].
    apply key_eqb_eq in Hk. split; assumption.
Qed.

Lemma find_root_element_first_witness :
  find_individual (mkParser None Cases.twins [] [] [] []) "@I1@"
  = Some Sample.john.
Proof.
  apply (proj1 (find_root_element_first Cases.twins "@I1@")
           [] Sample.john [Cases.twin]).
  - reflexivity.
  - intros a [].
  - reflexivity.
Defined.

(** ** Parents and children *)

Lemma flat_map_length_le {A B : Type} (g : A -> list B) (n : nat)
  (l : list A) :
  (forall a, length (g a) <= n)%nat ->
  (length (flat_map g l) <= n * length l)%nat.
Proof.
  intros Hg. induction l as [|a rest IH]; simpl; [lia|].
  rewrite length_app. specialize (Hg a). lia.
Qed.

(** X10: [get_parents] goes through the families that list the individual as a
    child, in order, and gives the lookup of the husband and then of the wife,
    leaving out a field that is the empty string: at most two entries per
    family, none for a blank field, [None] for a reference that does not
    resolve. *)
Theorem get_parents_entries (self : GedcomParser)
  (individual : GedcomIndividual) :
  get_parents self individual
  = flat_map
      (fun f => map (find_individual self)
                  (filter (fun x => negb (String.eqb x ""))
                     (family_get_parents f)))
      (child_families self individual)
  /\ (length (get_parents self individual)
      <= 2 * length (child_families self individual))%nat.
Proof.
  assert (Hshape :
    get_parents self individual
    = flat_map
        (fun f => map (find_individual self)
                    (filter (fun x => negb (String.eqb x ""))
                       (family_get_parents f)))
        (child_families self individual)).
  { unfold get_parents, child_families. rewrite flat_map_guard.
    apply flat_map_ext. intros f. unfold family_get_parents. cbn [filter].
    destruct (String.eqb (husband f) ""), (String.eqb (wife f) "");
      reflexivity. }
  split; [exact Hshape|]. rewrite Hshape.
  apply flat_map_length_le. intros f. rewrite length_map.
  unfold family_get_parents. cbn [filter].
  destruct (negb (String.eqb (husband f) "")),
           (negb (String.eqb (wife f) "")); simpl; lia.
Qed.

Lemma find_individual_present (self : GedcomParser) (i : GedcomIndividual)
  (x : string) :
  In i (individuals self) -> get_xref i = Some x ->
  exists j, find_individual self x = Some j
            /\ In j (individuals self) /\ get_xref j = Some x.
Proof.
  intros Hin Hx. destruct (find_individual self x) as [j|] eqn:Hf.
  - exists j. split; [reflexivity|]. apply find_individual_some. exact Hf.
  - exfalso. exact (proj1 (find_individual_none self x) Hf i Hin Hx).
Qed.

Lemma xref_in_spec (x : string) (l : list string) :
  xref_in (Some x) l = true <-> In x l.
Proof.
  unfold xref_in. rewrite existsb_exists. split.
  - intros (y & Hin & Hk). apply key_eqb_eq in Hk. injection Hk as ->.
    exact Hin.
  - intros Hin. exists x. split; [exact Hin|]. apply key_eqb_eq. reflexivity.
Qed.

(** X11: Parents and children answer each other: when a family names an
    individual of the collection as husband or wife and lists the cross-
    reference of another individual of the collection as child, the children
    of the first hold an individual with the child's cross-reference, and the
    parents of the second hold an individual with the parent's cross-
    reference. *)
Theorem parents_children_inverse (self : GedcomParser)
  (parent child : GedcomIndividual) (f : GedcomFamily) (xp xc : string) :
  In f (families self) ->
  In parent (individuals self) -> In child (individuals self) ->
  get_xref parent = Some xp -> xp <> "" ->
  husband f = xp \/ wife f = xp ->
  get_xref child = Some xc -> In xc (children f) ->
  (exists c, get_xref c = Some xc /\ In c (individuals self)
             /\ In (Some c) (get_children self parent))
  /\ (exists p, get_xref p = Some xp /\ In p (individuals self)
                /\ In (Some p) (get_parents self child)).
Proof.
  intros Hf Hp Hc Hxp Hne Hrole Hxc Hkid.
  destruct (find_individual_present self child xc Hc Hxc)
    as (c & Hfc & Hcin & Hcx).
  destruct (find_individual_present self parent xp Hp Hxp)
    as (p & Hfp & Hpin & Hpx).
  split.
  - exists c. split; [exact Hcx|]. split; [exact Hcin|].
    unfold get_children. apply in_flat_map. exists f. split; [exact Hf|].
    rewrite Hxp.
    assert (Hpar : xref_in (Some xp) (family_get_parents f) = true).
    { apply xref_in_spec. unfold family_get_parents.
      destruct Hrole as [<-| <-]; [left|right; left]; reflexivity. }
    rewrite Hpar. rewrite <- Hfc. apply in_map. exact Hkid.
  - exists p. split; [exact Hpx|]. split; [exact Hpin|].
    unfold get_parents. apply in_flat_map. exists f. split; [exact Hf|].
    rewrite Hxc, (proj2 (xref_in_spec xc (children f)) Hkid).
    apply String.eqb_neq in Hne. apply in_or_app.
    destruct Hrole as [Hh|Hw].
    + left. rewrite Hh, Hne. cbn [negb]. rewrite Hfp. left. reflexivity.
    + right. rewrite Hw, Hne. cbn [negb]. rewrite Hfp. left. reflexivity.
Qed.

Lemma parents_children_inverse_witness :
  (exists c, get_xref c = Some "@I3@"
             /\ In (Some c) (get_children Cases.family_with_child Sample.john))
  /\ (exists p, get_xref p = Some "@I1@"
                /\ In (Some p)
                     (get_parents Cases.family_with_child Cases.ella)).
Proof.
  destruct (parents_children_inverse Cases.family_with_child Sample.john
              Cases.ella Sample.travolta "@I1@" "@I3@"
              (or_introl eq_refl) (or_introl eq_refl)
              (or_intror (or_intror (or_introl eq_refl)))
              eq_refl ltac:(discriminate) (or_introl eq_refl)
              eq_refl (or_introl eq_refl))
    as [(c & Hcx & _ & Hc) (p & Hpx & _ & Hp)].
  split; [exists c|exists p]; split; assumption.
Defined.

(** ** The structured export *)

Lemma dict_get_set (d : list (option string * json)) (k k' : option string)
  (v : json) :
  dict_get (dict_set d k v) k'
  = if key_eqb k k' then Some v else dict_get d k'.
Proof.
  induction d as [|[k0 v0] rest IH]; cbn [dict_set dict_get].
  - reflexivity.
  - destruct (key_eqb k0 k) eqn:E0; cbn [dict_get].
    + apply key_eqb_eq in E0. subst k0.
      destruct (key_eqb k k'); reflexivity.
    + rewrite IH. destruct (key_eqb k0 k') eqn:E1; [|reflexivity].
      destruct (key_eqb k k') eqn:E2; [|reflexivity].
      apply key_eqb_eq in E1. apply key_eqb_eq in E2. subst.
      rewrite (proj2 (key_eqb_eq _ _) eq_refl) in E0. discriminate E0.
Qed.

Lemma dict_set_keys (d : list (option string * json)) (k : option string)
  (v : json) :
  dict_keys (dict_set d k v)
  = if existsb (fun k0 => key_eqb k0 k) (dict_keys d)
    then dict_keys d else dict_keys d ++ [k].
Proof.
  unfold dict_keys. induction d as [|[k0 v0] rest IH]; cbn; [reflexivity|].
  destruct (key_eqb k0 k) eqn:E0; cbn; [reflexivity|].
  rewrite IH. destruct (existsb _ (map fst rest)); reflexivity.
Qed.

Lemma dict_set_nodup (d : list (option string * json)) (k : option string)
  (v : json) :
  NoDup (dict_keys d) -> NoDup (dict_keys (dict_set d k v)).
Proof.
  intros Hn. rewrite dict_set_keys.
  destruct (existsb _ (dict_keys d)) eqn:E; [exact Hn|].
  apply NoDup_app; [exact Hn|repeat constructor; intros []|].
  intros a Ha [Hk|[]]. subst a.
  assert (Ht : existsb (fun k0 => key_eqb k0 k) (dict_keys d) = true).
  { apply existsb_exists. exists k. split; [exact Ha|].
    apply key_eqb_eq. reflexivity. }
  rewrite Ht in E. discriminate E.
Qed.

Lemma dict_set_length (d : list (option string * json)) (k : option string)
  (v : json) :
  (length (dict_set d k v) <= S (length d))%nat.
Proof.
  induction d as [|[k0 v0] rest IH]; cbn [dict_set]; [simpl; lia|].
  destruct (key_eqb k0 k); simpl; lia.
Qed.

Lemma find_snoc {A : Type} (q : A -> bool) (l : list A) (a : A) :
  find q (l ++ [a])
  = match find q l with
    | Some x => Some x
    | None => if q a then Some a else None
    end.
Proof.
  induction l as [|x rest IH]; cbn [Datatypes.app find]; [reflexivity|].
  destruct (q x); [reflexivity|exact IH].
Qed.

Section StructuredExport.
Context {T : Type} `{HasXref T} `{Exportable T}.

Lemma export_fold (empty_fields : bool) (records : list T)
  (k : option string) :
  forall d0,
    dict_get
      (fold_left
         (fun d r => dict_set d (get_xref r) (export_data empty_fields r))
         records d0) k
    = match find (fun r => key_eqb (get_xref r) k) (List.rev records) with
      | Some r => Some (export_data empty_fields r)
      | None => dict_get d0 k
      end.
Proof.
  induction records as [|r rest IH]; intros d0; [reflexivity|].
  cbn [fold_left List.rev]. rewrite IH, find_snoc, dict_get_set.
  destruct (find _ (List.rev rest)); [reflexivity|].
  destruct (key_eqb (get_xref r) k); reflexivity.
Qed.

Lemma export_fold_shape (empty_fields : bool) (records : list T) :
  forall d0,
    NoDup (dict_keys d0) ->
    let d := fold_left
               (fun d r => dict_set d (get_xref r)
                             (export_data empty_fields r))
               records d0 in
    NoDup (dict_keys d) /\ (length d <= length d0 + length records)%nat.
Proof.
  induction records as [|r rest IH]; intros d0 Hn; cbn [fold_left].
  - split; [exact Hn|simpl; lia].
  - destruct (IH _ (dict_set_nodup d0 (get_xref r)
                      (export_data empty_fields r) Hn)) as [Hd Hl].
    split; [exact Hd|].
    pose proof (dict_set_length d0 (get_xref r)
                  (export_data empty_fields r)).
    simpl. lia.
Qed.

(** X12: In the exported mapping of a collection the entry under a
    cross-reference is the data of the last record that carries it (a
    lookup by [find_*] gives the first one); the keys are distinct, so
    records that share a cross-reference share one entry. *)
Theorem export_collection_lookup (empty_fields : bool) (records : list T)
  (k : option string) :
  dict_get (json_entries (export_collection empty_fields records)) k
  = option_map (export_data empty_fields)
      (find (fun r => key_eqb (get_xref r) k) (List.rev records))
  /\ NoDup (dict_keys (json_entries
                         (export_collection empty_fields records)))
  /\ (length (json_entries (export_collection empty_fields records))
      <= length records)%nat.
Proof.
  unfold export_collection. cbn [json_entries]. split.
  - rewrite export_fold. destruct (find _ (List.rev records)); reflexivity.
  - exact (export_fold_shape empty_fields records [] (NoDup_nil _)).
Qed.

End StructuredExport.

Section ExportKeys.
Context `{Exportable GedcomHead} `{Exportable GedcomIndividual}
        `{Exportable GedcomFamily} `{Exportable GedcomSource}
        `{Exportable GedcomObject} `{Exportable GedcomRepository}
        `{JsonModule}.

(** X13: With [empty_fields] the exported mapping has the six keys head,
    individuals, families, sources, objects, repositories, in that order, and
    the empty string under head when there is no header; without
    [empty_fields] it has, in the same order, only the keys of the header that
    is present and of the collections that are not empty. *)
Theorem export_json_keys (self : GedcomParser) :
  dict_keys (json_entries (export_json true self))
  = [Some "head"; Some "individuals"; Some "families"; Some "sources";
     Some "objects"; Some "repositories"]
  /\ dict_keys (json_entries (export_json false self))
     = (if head_truthy (head self) then [Some "head"] else [])
       ++ (if truthy (individuals self) then [Some "individuals"] else [])
       ++ (if truthy (families self) then [Some "families"] else [])
       ++ (if truthy (sources self) then [Some "sources"] else [])
       ++ (if truthy (objects self) then [Some "objects"] else [])
       ++ (if truthy (repositories self) then [Some "repositories"] else [])
  /\ (head self = None ->
      dict_get (json_entries (export_json true self)) (Some "head")
      = Some (JStr "")).
Proof.
  destruct self as [h li lf ls lo lr]. unfold export_json.
  cbn [head individuals families sources objects repositories].
  split; [|split].
  - reflexivity.
  - destruct h, li, lf, ls, lo, lr; reflexivity.
  - intros ->. reflexivity.
Qed.

End ExportKeys.

Lemma export_collection_lookup_witness :
  dict_get
    (json_entries
       (@export_collection GedcomIndividual individual_xref
          Sample.individual_exportable true Cases.twins))
    (Some "@I1@")
  = Some (@export_data _ Sample.individual_exportable true Cases.twin)
  /\ find_root_element Cases.twins "@I1@" = Some Sample.john.
Proof.
  split.
  - rewrite (proj1 (@export_collection_lookup GedcomIndividual
                      individual_xref Sample.individual_exportable true
                      Cases.twins (Some "@I1@"))).
    reflexivity.
  - reflexivity.
Defined.

(** ** Names *)

Lemma split_app_all (sep : ascii) (a b : string) :
  PyStr.split sep (a ++ String sep b)
  = PyStr.split sep a ++ PyStr.split sep b.
Proof.
  induction a as [|c rest IH]; simpl.
  - rewrite Ascii.eqb_refl. reflexivity.
  - destruct (Ascii.eqb c sep); rewrite IH; [reflexivity|].
    destruct (PyStr.split sep rest) as [|w ws] eqn:Es.
    + exfalso. exact (split_not_nil _ _ Es).
    + reflexivity.
Qed.

Lemma split_length (sep : ascii) (s : string) :
  length (PyStr.split sep s) = S (occurrences sep s).
Proof.
  induction s as [|c rest IH]; simpl; [reflexivity|].
  destruct (Ascii.eqb c sep); simpl.
  - rewrite IH. reflexivity.
  - destruct (PyStr.split sep rest) as [|w ws]; [discriminate IH|].
    simpl in *. exact IH.
Qed.

Lemma occurrences_free (sep : ascii) (s : string) :
  free_of sep s = true <-> occurrences sep s = 0%nat.
Proof.
  induction s as [|c rest IH]; simpl; [split; reflexivity|].
  destruct (Ascii.eqb c sep); simpl.
  - split; discriminate.
  - exact IH.
Qed.

Lemma py_index_before_last {A : Type} (l : list A) (x y : A) :
  py_index (l ++ [x; y]) (-2) = Ok x.
Proof.
  unfold py_index. rewrite length_app. cbn [length Z.ltb Z.compare].
  replace (-2 + Z.of_nat (length l + 2))%Z with (Z.of_nat (length l))
    by lia.
  destruct (Z.of_nat (length l) <? 0)%Z eqn:E1;
    [apply Z.ltb_lt in E1; lia|].
  destruct (Z.of_nat (length l + 2) <=? Z.of_nat (length l))%Z eqn:E2;
    [apply Z.leb_le in E2; lia|].
  cbn [orb]. rewrite Nat2Z.id, nth_error_app2 by lia.
  rewrite Nat.sub_diag. reflexivity.
Qed.

Lemma two_last {A : Type} (l : list A) :
  (2 <= length l)%nat -> exists l' x y, l = l' ++ [x; y].
Proof.
  intros Hl. destruct (exists_last (l := l)) as (l1 & y & ->).
  { intros ->. simpl in Hl. lia. }
  rewrite length_app in Hl. simpl in Hl.
  destruct (exists_last (l := l1)) as (l' & x & ->).
  { intros ->. simpl in Hl. lia. }
  exists l', x, y. rewrite <- app_assoc. reflexivity.
Qed.

Lemma find_first_name_total (name : string) :
  exists f, find_first_name name = Ok f.
Proof.
  unfold find_first_name.
  destruct (PyStr.split "/" name) as [|part ps] eqn:E1;
    [exfalso; exact (split_not_nil _ _ E1)|].
  rewrite py_index_head. cbn [bind].
  destruct (PyStr.split " " part) as [|tok ts] eqn:E2;
    [exfalso; exact (split_not_nil _ _ E2)|].
  rewrite py_index_head. cbn [bind]. eexists. reflexivity.
Qed.

Lemma find_last_name_slash (name : string) :
  free_of "/" name = false -> exists l, find_last_name name = Ok l.
Proof.
  intros Hf. unfold find_last_name.
  destruct (two_last (PyStr.split "/" name)) as (l' & x & y & ->).
  - rewrite split_length.
    destruct (occurrences "/" name) eqn:Eo; [|lia].
    apply occurrences_free in Eo. rewrite Eo in Hf. discriminate Hf.
  - rewrite py_index_before_last. eexists. reflexivity.
Qed.

(** X14: The last name is the text between the last two slashes of the name,
    stripped; when the name holds one slash only it is the text before that
    slash, the given names. *)
Theorem last_name_between_slashes (pre mid suf : string) :
  free_of "/" mid = true -> free_of "/" suf = true ->
  find_last_name (mid ++ "/" ++ suf) = Ok (PyStr.strip mid)
  /\ find_last_name (pre ++ "/" ++ mid ++ "/" ++ suf)
     = Ok (PyStr.strip mid).
Proof.
  intros Hm Hs. unfold find_last_name.
  assert (Htail : PyStr.split "/" (mid ++ "/" ++ suf) = [mid; suf]).
  { change (mid ++ "/" ++ suf)%string with (mid ++ String "/" suf)%string.
    rewrite split_app by exact Hm. rewrite (split_free _ _ Hs).
    reflexivity. }
  split.
  - rewrite Htail. reflexivity.
  - change (pre ++ "/" ++ mid ++ "/" ++ suf)%string
      with (pre ++ String "/" (mid ++ "/" ++ suf))%string.
    rewrite split_app_all, Htail, py_index_before_last. reflexivity.
Qed.

Lemma last_name_between_slashes_witness :
  find_last_name "John /Doe" = Ok "John"
  /\ find_last_name "Anna /Maria/ van /Dijk/ jr" = Ok "Dijk".
Proof.
  split.
  - apply (proj1 (last_name_between_slashes "" "John " "Doe"
                    eq_refl eq_refl)).
  - apply (proj2 (last_name_between_slashes "Anna /Maria/ van " "Dijk" " jr"
                    eq_refl eq_refl)).
Defined.

(** X15: The first name is always found; the last name is found exactly when
    the name holds a slash, and the constructor of the individual raises
    [IndexError] for every name without one (a missing NAME included). *)
Theorem name_needs_slash `{ElementModule} (root : GedcomRootElement) :
  let name := find_name (sub_elements root) in
  (exists f, find_first_name name = Ok f)
  /\ (free_of "/" name = true ->
      find_last_name name = Err IndexError
      /\ individual_fields root = Err IndexError)
  /\ (free_of "/" name = false -> exists l, find_last_name name = Ok l).
Proof.
  intros name. split; [apply find_first_name_total|]. split.
  - intros Hf. split; [apply find_last_name_no_slash; exact Hf|].
    unfold individual_fields. fold name.
    destruct (find_first_name_total name) as [f ->]. cbn [bind].
    rewrite (find_last_name_no_slash name Hf). reflexivity.
  - apply find_last_name_slash.
Qed.

Lemma name_needs_slash_witness :
  @individual_fields Sample.element_module
    (mkRoot 0 (Some "@I1@") "INDI" [Cases.name_element "John"])
  = Err IndexError.
Proof.
  apply (proj2 (@name_needs_slash Sample.element_module
                  (mkRoot 0 (Some "@I1@") "INDI"
                     [Cases.name_element "John"]))).
  reflexivity.
Defined.

Lemma lstrip_free (sep : ascii) (s : string) :
  free_of sep s = true -> free_of sep (PyStr.lstrip s) = true.
Proof.
  induction s as [|c rest IH]; simpl; [reflexivity|].
  intros Hf. destruct (PyStr.isspace c); [|exact Hf].
  apply andb_true_iff in Hf as [_ Hr]. exact (IH Hr).
Qed.

Lemma rstrip_free (sep : ascii) (s : string) :
  free_of sep s = true -> free_of sep (PyStr.rstrip s) = true.
Proof.
  induction s as [|c rest IH]; simpl; [reflexivity|].
  intros Hf. apply andb_true_iff in Hf as [Hc Hr]. specialize (IH Hr).
  destruct (PyStr.rstrip rest) as [|d r'].
  - destruct (PyStr.isspace c); [reflexivity|].
    simpl. rewrite Hc. reflexivity.
  - cbn [free_of]. cbn [free_of] in IH. rewrite Hc, IH. reflexivity.
Qed.

Lemma strip_free (sep : ascii) (s : string) :
  free_of sep s = true -> free_of sep (PyStr.strip s) = true.
Proof.
  intros Hf. unfold PyStr.strip. apply rstrip_free, lstrip_free. exact Hf.
Qed.

Lemma split_keeps_free (c sep : ascii) (s : string) :
  free_of c s = true ->
  Forall (fun w => free_of c w = true) (PyStr.split sep s).
Proof.
  induction s as [|x rest IH]; simpl; intros Hf.
  - constructor; [reflexivity|constructor].
  - apply andb_true_iff in Hf as [Hx Hr]. specialize (IH Hr).
    destruct (Ascii.eqb x sep).
    + constructor; [reflexivity|exact IH].
    + destruct (PyStr.split sep rest) as [|w ws].
      * constructor; [simpl; rewrite Hx; reflexivity|constructor].
      * inversion IH as [|? ? Hw Hws]; subst.
        constructor; [simpl; rewrite Hx, Hw; reflexivity|exact Hws].
Qed.

Lemma py_index_in {A : Type} (l : list A) (i : Z) (a : A) :
  py_index l i = Ok a -> In a l.
Proof.
  unfold py_index. destruct (_ || _)%bool; [discriminate|].
  destruct (nth_error l _) as [b|] eqn:En; [|discriminate].
  intros Hb. injection Hb as <-. exact (nth_error_In _ _ En).
Qed.

(** X16: A first name never holds a slash or a space, and a last name never
    holds a slash. *)
Theorem names_hold_no_separator (name : string) :
  (forall f, find_first_name name = Ok f ->
             free_of "/" f = true /\ free_of " " f = true)
  /\ (forall l, find_last_name name = Ok l -> free_of "/" l = true).
Proof.
  split.
  - intros f Hf. unfold find_first_name in Hf.
    destruct (py_index (PyStr.split "/" name) 0) as [part|e] eqn:E1;
      [|discriminate Hf]. cbn [bind] in Hf.
    destruct (py_index (PyStr.split " " part) 0) as [tok|e] eqn:E2;
      [|discriminate Hf]. cbn [bind] in Hf. injection Hf as <-.
    apply py_index_in in E1. apply py_index_in in E2.
    pose proof (split_pieces_free "/" name) as Hp.
    rewrite Forall_forall in Hp. specialize (Hp part E1).
    pose proof (split_keeps_free "/" " " part Hp) as Hk.
    rewrite Forall_forall in Hk.
    pose proof (split_pieces_free " " part) as Hs.
    rewrite Forall_forall in Hs.
    split; apply strip_free; [exact (Hk tok E2)|exact (Hs tok E2)].
  - intros l Hl. unfold find_last_name in Hl.
    destruct (py_index (PyStr.split "/" name) (-2)) as [part|e] eqn:E1;
      [|discriminate Hl]. cbn [bind] in Hl. injection Hl as <-.
    apply py_index_in in E1.
    pose proof (split_pieces_free "/" name) as Hp.
    rewrite Forall_forall in Hp. apply strip_free. exact (Hp part E1).
Qed.

Lemma names_hold_no_separator_witness :
  free_of "/" "John" = true /\ free_of " " "John" = true.
Proof.
  apply (proj1 (names_hold_no_separator "John Joseph /Travolta/") "John").
  reflexivity.
Defined.

(** ** The individuals a parse stores *)

Lemma construct_forall {T : Type}
  (init : Z -> option string -> string -> list string -> result T)
  (Q : T -> Prop) (gs : list (ParsedLine * list string)) (l : list T) :
  (forall lvl x t lines rec, init lvl x t lines = Ok rec -> Q rec) ->
  construct init gs = Ok l -> Forall Q l.
Proof.
  intros Hq. revert l. induction gs as [|g rest IH]; simpl; intros l Hc.
  - injection Hc as <-. constructor.
  - destruct (init _ _ _ _) as [r|e] eqn:Hi; [|discriminate Hc].
    cbn [bind] in Hc.
    destruct (construct init rest) as [rs|e]; [|discriminate Hc].
    cbn [bind] in Hc. injection Hc as <-.
    constructor; [exact (Hq _ _ _ _ _ Hi)|exact (IH rs eq_refl)].
Qed.

Section StoredIndividuals.
Context `{ElementModule}.

Lemma individual_fields_consistent (root : GedcomRootElement)
  (i : GedcomIndividual) :
  individual_fields root = Ok i -> consistent i /\ indi_root i = root.
Proof.
  unfold individual_fields. intros Hi.
  destruct (find_first_name (find_name (sub_elements root)))
    as [f|e] eqn:Hf; [|discriminate Hi]. cbn [bind] in Hi.
  destruct (find_last_name (find_name (sub_elements root)))
    as [l|e] eqn:Hl; [|discriminate Hi]. cbn [bind] in Hi.
  destruct (init_event "BIRT" (sub_elements root)) as [b|e];
    [|discriminate Hi]. cbn [bind] in Hi.
  destruct (init_event "DEAT" (sub_elements root)) as [d|e];
    [|discriminate Hi]. cbn [bind] in Hi.
  injection Hi as <-. split; [|reflexivity].
  unfold consistent, get_name, get_first_name, get_last_name.
  cbn [indi_root export_name export_first_name export_last_name export_sex
       export_media].
  repeat split; try assumption.
  destruct (free_of "/" (find_name (sub_elements root))) eqn:Hs;
    [|reflexivity].
  rewrite (find_last_name_no_slash _ Hs) in Hl. discriminate Hl.
Qed.

(** X17: Every individual a successful [parse] stores is consistent with its
    children: its name is the value of its first NAME child and holds a slash,
    its first and last name are those of that name, its sex and media are
    those of its SEX and OBJE children. *)
Theorem parse_individuals_consistent (file : string)
  (self self' : GedcomParser) (r : Collections) :
  parse file self = (Ok r, self') ->
  Forall consistent (individuals self').
Proof.
  intros Hparse.
  destruct (parse_records file self self' r Hparse) as (gs & _ & Hrec & _).
  destruct (records_of_empty gs self' Hrec) as (Ci & _).
  apply (construct_forall GedcomIndividual_init consistent _ _) in Ci;
    [exact Ci|].
  intros lvl x t lines rec Hinit.
  unfold GedcomIndividual_init in Hinit.
  destruct (GedcomRootElement_init lvl x t lines) as [root|e];
    [|discriminate Hinit]. cbn [bind] in Hinit.
  exact (proj1 (individual_fields_consistent root rec Hinit)).
Qed.

(** ** The two versions of the individual record *)

Section TwoVersions.
Context `{Legacy.ElementModule}.


(** X19: The older constructor raises [IndexError] when there is no NAME
    child; for a NAME without slash it builds the record, and the failure
    comes later, from [get_last_name], [__str__] and [get_data], where the
    newer constructor raises at once. *)
Theorem legacy_late_failure `{Legacy.EventModule} (lvl : Z)
  (x : option string) (t : string) (subs : list GedcomElement) :
  (find_sub_element "NAME" subs = [] ->
   Legacy.individual_fields lvl x t subs = Err IndexError)
  /\ (forall j,
         Legacy.individual_fields lvl x t subs = Ok j ->
         free_of "/" (find_name subs) = true ->
         Legacy.get_last_name j = Err IndexError
         /\ Legacy.str j = Err IndexError
         /\ Legacy.get_data j = Err IndexError
         /\ individual_fields (mkRoot lvl x t subs) = Err IndexError).
Proof.
  split.
  - intros Hn. unfold Legacy.individual_fields. rewrite Hn. reflexivity.
  - intros j Hj Hs. unfold Legacy.individual_fields in Hj.
    destruct (find_sub_element "NAME" subs) as [|e rest] eqn:En;
      [discriminate Hj|].
    rewrite py_index_head in Hj. cbn [bind] in Hj.
    destruct (Legacy.init_event "BIRT" subs) as [b|eb]; [|discriminate Hj].
    cbn [bind] in Hj.
    destruct (Legacy.init_event "DEAT" subs) as [d|ed]; [|discriminate Hj].
    cbn [bind] in Hj. injection Hj as <-.
    assert (Hv : get_value e = find_name subs).
    { unfold find_name. rewrite En. reflexivity. }
    unfold Legacy.str, Legacy.get_data, Legacy.get_last_name,
      Legacy.get_first_name. cbn [Legacy.name]. rewrite Hv.
    destruct (find_first_name_total (find_name subs)) as [f Hf].
    rewrite Hf, (find_last_name_no_slash _ Hs). cbn [bind].
    repeat split.
    unfold individual_fields. cbn [sub_elements].
    rewrite Hf, (find_last_name_no_slash _ Hs). reflexivity.
Qed.

End TwoVersions.

End StoredIndividuals.

Lemma parse_individuals_consistent_witness :
  exists self', Forall consistent (individuals self')
                /\ length (individuals self') = 2%nat.
Proof.
  destruct (Sample.parse Sample.family_file empty_parser)
    as [[r|e] self'] eqn:Hparse; [|vm_compute in Hparse; discriminate Hparse].
  exists self'. split.
  - exact (@parse_individuals_consistent Sample.element_module
             Sample.family_file empty_parser self' r Hparse).
  - vm_compute in Hparse. injection Hparse as _ <-. reflexivity.
Defined.


Lemma legacy_late_failure_witness :
  exists j,
    @Legacy.individual_fields Cases.legacy_module 0 (Some "@I1@") "INDI"
      [Cases.name_element "John"] = Ok j
    /\ @Legacy.get_data Cases.event_module j = Err IndexError.
Proof.
  eexists. split; [reflexivity|].
  apply (proj2 (@legacy_late_failure Sample.element_module
                  Cases.legacy_module Cases.event_module
                  0 (Some "@I1@") "INDI" [Cases.name_element "John"]));
    reflexivity.
Defined.

(** ** When [parse] returns *)

Section ParseReturns.
Context `{ElementModule}.

Lemma parse_loop_returns (lines : list string) :
  forall (current : ParsedLine) (element_lines : list string)
         (gs : list (ParsedLine * list string)) (s : GedcomParser),
    group_lines lines current element_lines = Ok gs ->
    (forall g s0, In g gs ->
                  exists s1, create_element (fst g) (snd g) s0 = (Ok tt, s1)) ->
    exists last s',
      parse_loop lines current element_lines s = (Ok last, s')
      /\ In last gs.
Proof.
  induction lines as [|l ls IH]; intros current element_lines gs s Hg Hb.
  - injection Hg as <-. exists (current, element_lines), s.
    split; [reflexivity|left; reflexivity].
  - cbn [group_lines parse_loop] in *.
    destruct (is_blank l); [exact (IH _ _ _ s Hg Hb)|].
    unfold mbind, lift.
    destruct (parse_line l) as [p|e]; [|discriminate Hg].
    cbn [bind] in Hg.
    destruct (level p >? 0)%Z; [exact (IH _ _ _ s Hg Hb)|].
    destruct (group_lines ls p []) as [gs'|e] eqn:Hg'; [|discriminate Hg].
    cbn [bind] in Hg. injection Hg as <-.
    destruct (Hb (current, element_lines) s (or_introl eq_refl)) as [s1 Hc].
    cbn [fst snd] in Hc. rewrite Hc.
    destruct (IH p [] gs' s1 Hg') as (last & s' & Hloop & Hin).
    + intros g s0 Hin. apply Hb. right. exact Hin.
    + exists last, s'. split; [exact Hloop|right; exact Hin].
Qed.

(** X20: [parse] returns its collections whenever the first line and every
    later non-blank line tokenize and [__create_element] returns on each group
    of the file. *)
Theorem parse_returns (file : string)
  (gs : list (ParsedLine * list string)) (self : GedcomParser) :
  top_level_groups file = Ok gs ->
  (forall g s0, In g gs ->
                exists s1, create_element (fst g) (snd g) s0 = (Ok tt, s1)) ->
  exists self',
    parse file self = (Ok (collections self'), self')
    /\ records_of gs empty_parser self'.
Proof.
  intros Hg Hb.
  assert (Hparse : exists self',
             parse file self = (Ok (collections self'), self')).
  { unfold top_level_groups in Hg. unfold parse, mbind, modify, lift.
    destruct (py_index (PyStr.split "010" file) 0) as [first|e];
      [|discriminate Hg]. cbn [bind] in Hg.
    destruct (parse_line first) as [current|e]; [|discriminate Hg].
    cbn [bind] in Hg.
    destruct (parse_loop_returns _ _ _ _ empty_parser Hg Hb)
      as ([last_line last_lines] & s1 & Hloop & Hin).
    rewrite Hloop. cbn [fst snd].
    destruct (Hb _ s1 Hin) as [s2 Hc]. cbn [fst snd] in Hc. rewrite Hc.
    exists s2. reflexivity. }
  destruct Hparse as [self' Hparse]. exists self'.
  split; [exact Hparse|].
  destruct (parse_records file self _ _ Hparse) as (gs' & Hg2 & Hrec & _).
  rewrite Hg in Hg2. injection Hg2 as <-. exact Hrec.
Qed.

End ParseReturns.

Lemma parse_returns_witness :
  exists self',
    Sample.parse Sample.family_file Sample.family_record
    = (Ok (collections self'), self').
Proof.
  destruct (top_level_groups Sample.family_file) as [gs|e] eqn:Hg;
    [|vm_compute in Hg; discriminate Hg].
  destruct (@parse_returns Sample.element_module Sample.family_file gs
              Sample.family_record Hg) as (self' & Hp & _).
  - vm_compute in Hg. injection Hg as <-. intros g s0 Hin.
    repeat (destruct Hin as [<-|Hin]; [eexists; lazy; reflexivity|]).
    contradiction.
  - exists self'. exact Hp.
Defined.

Lemma export_json_keys_witness :
  dict_get
    (json_entries
       (@export_json Sample.head_exportable Sample.individual_exportable
          Sample.family_exportable Sample.source_exportable
          Sample.object_exportable Sample.repository_exportable
          true Sample.family_record))
    (Some "head")
  = Some (JStr "").
Proof.
  apply (proj2 (proj2 (@export_json_keys Sample.head_exportable
                         Sample.individual_exportable
                         Sample.family_exportable Sample.source_exportable
                         Sample.object_exportable
                         Sample.repository_exportable
                         Sample.family_record))).
  reflexivity.
Defined.
